(** * POLI: the checklist store, its persistence adapter and the screen-name
      deriver, embedded from the TypeScript sources.

    - [types.ts]              : the data model ([TestItem], [BugReport], ...)
    - [QAContext.tsx]         : [mergeChecklists], the provider's initial state
                                and the state-updating callbacks
    - [qaStorage.ts]          : [loadQAState], [saveQAState], [clearOldSessions]
    - [cli/routerParser.ts]   : [routePathToScreenName]

    Every callback of the provider has the shape [setState(prev => next)];
    it is embedded as the pure function [prev -> next].  Each reading of
    [Date.now()] is an explicit argument.  JavaScript numbers that hold
    millisecond clock readings are integers ([Z]); array lengths are [nat]. *)

From Stdlib Require Import ZArith Lia Bool Ascii String List Sorted Permutation.
From Stdlib Require Import DecimalString.
From stdpp Require Import base option list gmap strings sorting.

Open Scope Z_scope.
Open Scope string_scope.
Open Scope list_scope.

(** ** Data model ([types.ts]) *)

Inductive TestStatus := not_started | passed | failed | skipped.
Inductive Category := UI | Functionality | Performance | Integration.
Inductive BugSeverity := critical | high | medium | low.
Inductive BugStatus := open | in_progress | fixed | wont_fix.

#[global] Instance TestStatus_eq_dec : EqDecision TestStatus.
Proof. solve_decision. Defined.
#[global] Instance BugStatus_eq_dec : EqDecision BugStatus.
Proof. solve_decision. Defined.

(** An optional field ([notes?: string]) is an [option]; a field that is
    present with value [undefined] and a field that is absent are the same
    value here, as they are for every reader in the sources. *)

Module TestItem.
Record t := mk {
  id : string;
  screen : string;
  category : Category;
  description : string;
  status : TestStatus;
  notes : option string;
  testedAt : option Z
}.
End TestItem.

Module BugReport.
Record t := mk {
  id : string;
  title : string;
  description : string;
  severity : BugSeverity;
  status : BugStatus;
  screen : string;
  stepsToReproduce : list string;
  expectedBehavior : string;
  actualBehavior : string;
  screenshot : option string;
  consoleErrors : option string;
  sessionMetadata : option (list (string * string));
  reportedAt : Z;
  reportedBy : string;
  fixedAt : option Z;
  fixedIn : option string
}.
End BugReport.

(** [Omit<BugReport, 'id' | 'reportedAt'>], the argument of [reportBug]. *)
Module BugDraft.
Record t := mk {
  title : string;
  description : string;
  severity : BugSeverity;
  status : BugStatus;
  screen : string;
  stepsToReproduce : list string;
  expectedBehavior : string;
  actualBehavior : string;
  screenshot : option string;
  consoleErrors : option string;
  sessionMetadata : option (list (string * string));
  reportedBy : string;
  fixedAt : option Z;
  fixedIn : option string
}.
End BugDraft.

Module TestSession.
Record t := mk {
  id : string;
  name : string;
  startedAt : Z;
  completedAt : option Z;
  totalTests : nat;
  passedTests : nat;
  failedTests : nat;
  skippedTests : nat;
  bugsFound : list string;
  notes : option string;
  tester : string
}.
End TestSession.

Module TestChecklist.
Record t := mk {
  screen : string;
  items : list TestItem.t
}.
End TestChecklist.

Module QAState.
Record t := mk {
  isOpen : bool;
  currentSession : option TestSession.t;
  testSessions : list TestSession.t;
  checklists : list TestChecklist.t;
  bugs : list BugReport.t
}.
End QAState.

(** JavaScript truthiness of an optional string and of an optional number:
    [undefined], the empty string and [0] are falsy. *)
Definition truthy_string (o : option string) : bool :=
  match o with
  | Some s => negb (String.eqb s "")
  | None => false
  end.

Definition truthy_number (o : option Z) : bool :=
  match o with
  | Some n => negb (Z.eqb n 0)
  | None => false
  end.

(** [`prefix_${n}`]: a clock reading printed in decimal. *)
Definition number_to_string (n : Z) : string :=
  match n with
  | Z0 => "0"
  | Zpos p => NilEmpty.string_of_uint (Pos.to_uint p)
  | Zneg p => "-" +:+ NilEmpty.string_of_uint (Pos.to_uint p)
  end.

(** ** The checklist store ([QAContext.tsx]) *)

Definition DEFAULT_STATE : QAState.t :=
  {| QAState.isOpen := false;
     QAState.currentSession := None;
     QAState.testSessions := [];
     QAState.checklists := [];
     QAState.bugs := [] |}.

(** [checklists.flatMap(c => c.items)] *)
Definition allItems (cls : list TestChecklist.t) : list TestItem.t :=
  flat_map TestChecklist.items cls.

(** [{ ...checklist, items: checklist.items.map(f) }] on every checklist. *)
Definition mapItems (f : TestItem.t -> TestItem.t)
    (cls : list TestChecklist.t) : list TestChecklist.t :=
  map (fun c => {| TestChecklist.screen := TestChecklist.screen c;
                   TestChecklist.items := map f (TestChecklist.items c) |}) cls.

(** [allTests.filter(t => t.status === st).length] *)
Definition countStatus (st : TestStatus) (l : list TestItem.t) : nat :=
  length (filter (fun t => TestItem.status t = st) l).

(** [{ ...item, status, notes, testedAt: Date.now() }] *)
Definition stampItem (st : TestStatus) (nt : option string) (now : Z)
    (item : TestItem.t) : TestItem.t :=
  {| TestItem.id := TestItem.id item;
     TestItem.screen := TestItem.screen item;
     TestItem.category := TestItem.category item;
     TestItem.description := TestItem.description item;
     TestItem.status := st;
     TestItem.notes := nt;
     TestItem.testedAt := Some now |}.

(** [{ ...session, totalTests, passedTests, failedTests, skippedTests }]
    recomputed from the full item list. *)
Definition recount (allTests : list TestItem.t) (s : TestSession.t)
    : TestSession.t :=
  {| TestSession.id := TestSession.id s;
     TestSession.name := TestSession.name s;
     TestSession.startedAt := TestSession.startedAt s;
     TestSession.completedAt := TestSession.completedAt s;
     TestSession.totalTests := length allTests;
     TestSession.passedTests := countStatus passed allTests;
     TestSession.failedTests := countStatus failed allTests;
     TestSession.skippedTests := countStatus skipped allTests;
     TestSession.bugsFound := TestSession.bugsFound s;
     TestSession.notes := TestSession.notes s;
     TestSession.tester := TestSession.tester s |}.

Definition updateTestStatus (testId : string) (st : TestStatus)
    (nt : option string) (now : Z) (prev : QAState.t) : QAState.t :=
  let updatedChecklists :=
    mapItems (fun item =>
                if decide (TestItem.id item = testId)
                then stampItem st nt now item
                else item)
             (QAState.checklists prev) in
  let updatedSession :=
    match QAState.currentSession prev with
    | Some session => Some (recount (allItems updatedChecklists) session)
    | None => None
    end in
  {| QAState.isOpen := QAState.isOpen prev;
     QAState.currentSession := updatedSession;
     QAState.testSessions := QAState.testSessions prev;
     QAState.checklists := updatedChecklists;
     QAState.bugs := QAState.bugs prev |}.

Definition addTestItem (item : TestItem.t) (prev : QAState.t) : QAState.t :=
  let cls := QAState.checklists prev in
  let same c := String.eqb (TestChecklist.screen c) (TestItem.screen item) in
  {| QAState.isOpen := QAState.isOpen prev;
     QAState.currentSession := QAState.currentSession prev;
     QAState.testSessions := QAState.testSessions prev;
     QAState.checklists :=
       if existsb same cls
       then map (fun c =>
                   if same c
                   then {| TestChecklist.screen := TestChecklist.screen c;
                           TestChecklist.items := TestChecklist.items c ++ [item] |}
                   else c) cls
       else cls ++ [ {| TestChecklist.screen := TestItem.screen item;
                        TestChecklist.items := [item] |} ];
     QAState.bugs := QAState.bugs prev |}.

Definition removeTestItem (testId : string) (prev : QAState.t) : QAState.t :=
  {| QAState.isOpen := QAState.isOpen prev;
     QAState.currentSession := QAState.currentSession prev;
     QAState.testSessions := QAState.testSessions prev;
     QAState.checklists :=
       map (fun c =>
              {| TestChecklist.screen := TestChecklist.screen c;
                 TestChecklist.items :=
                   filter (fun item => TestItem.id item <> testId)
                          (TestChecklist.items c) |})
           (QAState.checklists prev);
     QAState.bugs := QAState.bugs prev |}.

(** [reportBug]: [Date.now()] is read twice, once for the id and once for
    [reportedAt]. *)
Definition newBug (bug : BugDraft.t) (nowId nowReported : Z) : BugReport.t :=
  {| BugReport.id := "bug_" +:+ number_to_string nowId;
     BugReport.title := BugDraft.title bug;
     BugReport.description := BugDraft.description bug;
     BugReport.severity := BugDraft.severity bug;
     BugReport.status := BugDraft.status bug;
     BugReport.screen := BugDraft.screen bug;
     BugReport.stepsToReproduce := BugDraft.stepsToReproduce bug;
     BugReport.expectedBehavior := BugDraft.expectedBehavior bug;
     BugReport.actualBehavior := BugDraft.actualBehavior bug;
     BugReport.screenshot := BugDraft.screenshot bug;
     BugReport.consoleErrors := BugDraft.consoleErrors bug;
     BugReport.sessionMetadata := BugDraft.sessionMetadata bug;
     BugReport.reportedAt := nowReported;
     BugReport.reportedBy := BugDraft.reportedBy bug;
     BugReport.fixedAt := BugDraft.fixedAt bug;
     BugReport.fixedIn := BugDraft.fixedIn bug |}.

(** [{ ...session, bugsFound: f(session.bugsFound) }] *)
Definition withBugsFound (f : list string -> list string) (s : TestSession.t)
    : TestSession.t :=
  {| TestSession.id := TestSession.id s;
     TestSession.name := TestSession.name s;
     TestSession.startedAt := TestSession.startedAt s;
     TestSession.completedAt := TestSession.completedAt s;
     TestSession.totalTests := TestSession.totalTests s;
     TestSession.passedTests := TestSession.passedTests s;
     TestSession.failedTests := TestSession.failedTests s;
     TestSession.skippedTests := TestSession.skippedTests s;
     TestSession.bugsFound := f (TestSession.bugsFound s);
     TestSession.notes := TestSession.notes s;
     TestSession.tester := TestSession.tester s |}.

Definition reportBug (bug : BugDraft.t) (nowId nowReported : Z)
    (prev : QAState.t) : QAState.t :=
  let nb := newBug bug nowId nowReported in
  {| QAState.isOpen := QAState.isOpen prev;
     QAState.currentSession :=
       match QAState.currentSession prev with
       | Some session =>
           Some (withBugsFound (fun l => l ++ [BugReport.id nb]) session)
       | None => None
       end;
     QAState.testSessions := QAState.testSessions prev;
     QAState.checklists := QAState.checklists prev;
     QAState.bugs := QAState.bugs prev ++ [nb] |}.

(** [{ ...bug, status, fixedAt: status === 'fixed' ? Date.now() : bug.fixedAt }] *)
Definition restatusBug (st : BugStatus) (now : Z) (bug : BugReport.t)
    : BugReport.t :=
  {| BugReport.id := BugReport.id bug;
     BugReport.title := BugReport.title bug;
     BugReport.description := BugReport.description bug;
     BugReport.severity := BugReport.severity bug;
     BugReport.status := st;
     BugReport.screen := BugReport.screen bug;
     BugReport.stepsToReproduce := BugReport.stepsToReproduce bug;
     BugReport.expectedBehavior := BugReport.expectedBehavior bug;
     BugReport.actualBehavior := BugReport.actualBehavior bug;
     BugReport.screenshot := BugReport.screenshot bug;
     BugReport.consoleErrors := BugReport.consoleErrors bug;
     BugReport.sessionMetadata := BugReport.sessionMetadata bug;
     BugReport.reportedAt := BugReport.reportedAt bug;
     BugReport.reportedBy := BugReport.reportedBy bug;
     BugReport.fixedAt :=
       if decide (st = fixed) then Some now else BugReport.fixedAt bug;
     BugReport.fixedIn := BugReport.fixedIn bug |}.

Definition updateBugStatus (bugId : string) (st : BugStatus) (now : Z)
    (prev : QAState.t) : QAState.t :=
  {| QAState.isOpen := QAState.isOpen prev;
     QAState.currentSession := QAState.currentSession prev;
     QAState.testSessions := QAState.testSessions prev;
     QAState.checklists := QAState.checklists prev;
     QAState.bugs :=
       map (fun bug =>
              if decide (BugReport.id bug = bugId)
              then restatusBug st now bug
              else bug)
           (QAState.bugs prev) |}.

Definition deleteBug (bugId : string) (prev : QAState.t) : QAState.t :=
  {| QAState.isOpen := QAState.isOpen prev;
     QAState.currentSession :=
       match QAState.currentSession prev with
       | Some session =>
           Some (withBugsFound (filter (fun i => i <> bugId)) session)
       | None => None
       end;
     QAState.testSessions := QAState.testSessions prev;
     QAState.checklists := QAState.checklists prev;
     QAState.bugs :=
       filter (fun bug => BugReport.id bug <> bugId) (QAState.bugs prev) |}.

(** [{ ...item, status: 'not_started', notes: undefined, testedAt: undefined }] *)
Definition resetItem (item : TestItem.t) : TestItem.t :=
  {| TestItem.id := TestItem.id item;
     TestItem.screen := TestItem.screen item;
     TestItem.category := TestItem.category item;
     TestItem.description := TestItem.description item;
     TestItem.status := not_started;
     TestItem.notes := None;
     TestItem.testedAt := None |}.

(** [startTestSession]: [Date.now()] is read for the id and again for
    [startedAt]. *)
Definition startTestSession (name tester : string) (nowId nowStarted : Z)
    (prev : QAState.t) : QAState.t :=
  let resetChecklists := mapItems resetItem (QAState.checklists prev) in
  let allTests := allItems resetChecklists in
  let newSession :=
    {| TestSession.id := "session_" +:+ number_to_string nowId;
       TestSession.name := name;
       TestSession.startedAt := nowStarted;
       TestSession.completedAt := None;
       TestSession.totalTests := length allTests;
       TestSession.passedTests := 0;
       TestSession.failedTests := 0;
       TestSession.skippedTests := 0;
       TestSession.bugsFound := [];
       TestSession.notes := None;
       TestSession.tester := tester |} in
  {| QAState.isOpen := QAState.isOpen prev;
     QAState.currentSession := Some newSession;
     QAState.testSessions := QAState.testSessions prev;
     QAState.checklists := resetChecklists;
     QAState.bugs := QAState.bugs prev |}.

Definition completeTestSession (nt : option string) (now : Z)
    (prev : QAState.t) : QAState.t :=
  match QAState.currentSession prev with
  | None => prev
  | Some s =>
      let completedSession :=
        {| TestSession.id := TestSession.id s;
           TestSession.name := TestSession.name s;
           TestSession.startedAt := TestSession.startedAt s;
           TestSession.completedAt := Some now;
           TestSession.totalTests := TestSession.totalTests s;
           TestSession.passedTests := TestSession.passedTests s;
           TestSession.failedTests := TestSession.failedTests s;
           TestSession.skippedTests := TestSession.skippedTests s;
           TestSession.bugsFound := TestSession.bugsFound s;
           TestSession.notes := nt;
           TestSession.tester := TestSession.tester s |} in
      {| QAState.isOpen := QAState.isOpen prev;
         QAState.currentSession := None;
         QAState.testSessions := QAState.testSessions prev ++ [completedSession];
         QAState.checklists := QAState.checklists prev;
         QAState.bugs := QAState.bugs prev |}
  end.

Definition deleteSession (sessionId : string) (prev : QAState.t) : QAState.t :=
  {| QAState.isOpen := QAState.isOpen prev;
     QAState.currentSession := QAState.currentSession prev;
     QAState.testSessions :=
       filter (fun session => TestSession.id session <> sessionId)
              (QAState.testSessions prev);
     QAState.checklists := QAState.checklists prev;
     QAState.bugs := QAState.bugs prev |}.

(** *** Reconciliation on load *)

(** The value type of the [savedResults] map. *)
Record SavedResult := mkSavedResult {
  saved_status : TestStatus;
  saved_notes : option string;
  saved_testedAt : option Z
}.

(** [item.status !== 'not_started' || item.notes || item.testedAt] *)
Definition hasResult (item : TestItem.t) : bool :=
  negb (bool_decide (TestItem.status item = not_started))
  || truthy_string (TestItem.notes item)
  || truthy_number (TestItem.testedAt item).

Definition resultOf (item : TestItem.t) : SavedResult :=
  {| saved_status := TestItem.status item;
     saved_notes := TestItem.notes item;
     saved_testedAt := TestItem.testedAt item |}.

(** One step of the inner [forEach]: [savedResults.set(item.id, ...)] when
    the item carries a result. *)
Definition recordResult (m : gmap string SavedResult) (item : TestItem.t)
    : gmap string SavedResult :=
  if hasResult item then <[TestItem.id item := resultOf item]> m else m.

(** The two nested [forEach] loops that fill the map. *)
Definition savedResults (savedChecklists : list TestChecklist.t)
    : gmap string SavedResult :=
  fold_left (fun m checklist =>
               fold_left recordResult (TestChecklist.items checklist) m)
            savedChecklists ∅.

(** [{ ...item, ...saved }] *)
Definition applySaved (item : TestItem.t) (saved : SavedResult) : TestItem.t :=
  {| TestItem.id := TestItem.id item;
     TestItem.screen := TestItem.screen item;
     TestItem.category := TestItem.category item;
     TestItem.description := TestItem.description item;
     TestItem.status := saved_status saved;
     TestItem.notes := saved_notes saved;
     TestItem.testedAt := saved_testedAt saved |}.

Definition mergeItem (m : gmap string SavedResult) (item : TestItem.t)
    : TestItem.t :=
  match m !! TestItem.id item with
  | Some saved => applySaved item saved
  | None => item
  end.

Definition mergeChecklists (savedChecklists defaultChecklists : list TestChecklist.t)
    : list TestChecklist.t :=
  mapItems (mergeItem (savedResults savedChecklists)) defaultChecklists.

(** [Array.prototype.sort()] without a comparator orders strings by their
    code units; [insertString] puts [x] in front of the first element that
    is not smaller. *)
Fixpoint insertString (x : string) (l : list string) : list string :=
  match l with
  | [] => [x]
  | y :: r => if String.leb x y then x :: y :: r else y :: insertString x r
  end.

Definition sortStrings (l : list string) : list string :=
  foldr insertString [] l.

Definition generateChecklistFingerprint (checklists : list TestChecklist.t)
    : string :=
  String.concat ","
    (sortStrings (flat_map (fun c => map TestItem.id (TestChecklist.items c))
                           checklists)).

(** [{ ...loaded, checklists: cls, isOpen: false }] *)
Definition adopt (loaded : QAState.t) (cls : list TestChecklist.t) : QAState.t :=
  {| QAState.isOpen := false;
     QAState.currentSession := QAState.currentSession loaded;
     QAState.testSessions := QAState.testSessions loaded;
     QAState.checklists := cls;
     QAState.bugs := QAState.bugs loaded |}.

(** [{ ...DEFAULT_STATE, checklists: defaultChecklists }] *)
Definition seeded (defaultChecklists : list TestChecklist.t) : QAState.t :=
  {| QAState.isOpen := QAState.isOpen DEFAULT_STATE;
     QAState.currentSession := QAState.currentSession DEFAULT_STATE;
     QAState.testSessions := QAState.testSessions DEFAULT_STATE;
     QAState.checklists := defaultChecklists;
     QAState.bugs := QAState.bugs DEFAULT_STATE |}.

(** The initialiser passed to [useState] in [QAProvider].  [loaded] is what
    [loadQAState(storageKey)] returned, [savedFingerprint] what
    [localStorage.getItem(fingerprintKey)] returned ([None] for [null]). *)
Definition initialState (loaded : option QAState.t)
    (savedFingerprint : option string)
    (defaultChecklists : list TestChecklist.t) : QAState.t :=
  let newFingerprint := generateChecklistFingerprint defaultChecklists in
  match loaded with
  | Some l =>
      if (0 <? length (QAState.checklists l))%nat
      then
        if decide (savedFingerprint <> Some newFingerprint)
        then adopt l (mergeChecklists (QAState.checklists l) defaultChecklists)
        else adopt l (QAState.checklists l)
      else seeded defaultChecklists
  | None => seeded defaultChecklists
  end.

(** ** The persistence adapter ([qaStorage.ts]) *)

(** What [JSON.parse] can return.  A number keeps its literal; nothing in
    the adapter inspects it. *)
#[local] Set Warnings "-register-all".
Inductive JSON :=
| JNull
| JBool (b : bool)
| JNumber (literal : string)
| JString (s : string)
| JArray (elements : list JSON)
| JObject (properties : list (string * JSON)).

(** What can be thrown inside the adapter's [try] blocks. *)
Inductive Exn :=
| SyntaxError
| TypeError
| DOMException (name : string)
| OtherError.

(** The completion of an expression: a value, or an exception on its way
    to the enclosing [catch]. *)
Inductive Completion (A : Type) :=
| Normal (a : A)
| Throw (e : Exn).
Arguments Normal {A} a.
Arguments Throw {A} e.

#[global] Instance Completion_ret : MRet Completion := fun _ a => Normal a.
#[global] Instance Completion_bind : MBind Completion := fun _ _ k c =>
  match c with
  | Normal a => k a
  | Throw e => Throw e
  end.

Inductive TypeOf := ty_undefined | ty_object | ty_boolean | ty_number | ty_string.

#[global] Instance TypeOf_eq_dec : EqDecision TypeOf.
Proof. solve_decision. Defined.

(** [typeof v], where [None] stands for [undefined]; [typeof null] is
    ['object'], as it is for arrays. *)
Definition typeof (v : option JSON) : TypeOf :=
  match v with
  | None => ty_undefined
  | Some JNull => ty_object
  | Some (JBool _) => ty_boolean
  | Some (JNumber _) => ty_number
  | Some (JString _) => ty_string
  | Some (JArray _) => ty_object
  | Some (JObject _) => ty_object
  end.

Definition isArray (v : option JSON) : bool :=
  match v with
  | Some (JArray _) => true
  | _ => false
  end.

Fixpoint lookupProperty (k : string) (props : list (string * JSON))
    : option JSON :=
  match props with
  | [] => None
  | (k', v) :: r => if String.eqb k' k then Some v else lookupProperty k r
  end.

(** [v.k] for one of the four names the adapter reads, none of which is an
    array index, ["length"] or a member of a built-in prototype: reading it
    off [null] throws a [TypeError], off an object it finds the own property
    or [undefined], off anything else it is [undefined]. *)
Definition getProperty (v : JSON) (k : string) : Completion (option JSON) :=
  match v with
  | JNull => Throw TypeError
  | JObject props => Normal (lookupProperty k props)
  | _ => Normal None
  end.

(** The condition of the [if] in [loadQAState], with the short-circuit
    evaluation of [&&]. *)
Definition validStructure (parsed : JSON) : Completion bool :=
  if decide (typeof (Some parsed) = ty_object) then
    isOpen ← getProperty parsed "isOpen";
    if decide (typeof isOpen = ty_boolean) then
      testSessions ← getProperty parsed "testSessions";
      if isArray testSessions then
        checklists ← getProperty parsed "checklists";
        if isArray checklists then
          bugs ← getProperty parsed "bugs";
          mret (isArray bugs)
        else mret false
      else mret false
    else mret false
  else mret false.

Section Load.
(** [JSON.parse]: a value, or a thrown [SyntaxError]. *)
Variable JSON_parse : string -> Completion JSON.

(** The body of the [try] block.  [getItem] is the completion of
    [localStorage.getItem(storageKey)]: the stored text, [None] for
    [null], or an exception of the storage itself. *)
Definition loadQAState_try (getItem : Completion (option string))
    : Completion (option JSON) :=
  stored ← getItem;
  match stored with
  | None => mret None
  | Some text =>
      if String.eqb text "" then mret None
      else
        parsed ← JSON_parse text;
        ok ← validStructure parsed;
        if ok : bool then mret (Some parsed) else mret None
  end.

(** [try { ... } catch (err) { ...; return null; }] *)
Definition loadQAState (getItem : Completion (option string))
    : Completion (option JSON) :=
  match loadQAState_try getItem with
  | Normal r => Normal r
  | Throw _ => Normal None
  end.
End Load.

(** [(a, b) => b.startedAt - a.startedAt] puts [x] in front of [y] when the
    difference is not positive.  [Array.prototype.sort] is stable;
    [insertSession] places [x], which precedes every element of [l] in the
    array, in front of the first element that does not start later. *)
Fixpoint insertSession (x : TestSession.t) (l : list TestSession.t)
    : list TestSession.t :=
  match l with
  | [] => [x]
  | y :: r =>
      if (TestSession.startedAt y - TestSession.startedAt x <=? 0)%Z
      then x :: y :: r
      else y :: insertSession x r
  end.

(** [[...sessions].sort((a, b) => b.startedAt - a.startedAt)] *)
Definition sortByStartDesc (sessions : list TestSession.t)
    : list TestSession.t :=
  foldr insertSession [] sessions.

(** The [cleanedState] that [clearOldSessions] serialises and writes. *)
Definition clearOldSessions (state : QAState.t) : QAState.t :=
  let sortedSessions := sortByStartDesc (QAState.testSessions state) in
  let recentSessions := take 10 sortedSessions in
  {| QAState.isOpen := QAState.isOpen state;
     QAState.currentSession := QAState.currentSession state;
     QAState.testSessions := recentSessions;
     QAState.checklists := QAState.checklists state;
     QAState.bugs := QAState.bugs state |}.

(** [err instanceof DOMException && err.name === 'QuotaExceededError'] *)
Definition isQuotaExceeded (e : Exn) : bool :=
  match e with
  | DOMException name => String.eqb name "QuotaExceededError"
  | _ => false
  end.

(** [saveQAState], as the list of states it hands to
    [JSON.stringify]/[localStorage.setItem], in order.  [firstWrite] is the
    completion of the write in the [try] block.  The retry sits in a [try]
    of its own inside [clearOldSessions], so its completion changes
    nothing. *)
Definition saveQAState (state : QAState.t) (firstWrite : Completion unit)
    : list QAState.t :=
  match firstWrite with
  | Normal _ => [state]
  | Throw err =>
      if isQuotaExceeded err
      then [state; clearOldSessions state]
      else [state]
  end.

(** ** The screen-name deriver ([cli/routerParser.ts]) *)

(** Strings are sequences of 8-bit characters; [toUpperCase] is modelled on
    the ASCII letters. *)

Definition isWordChar (c : ascii) : bool :=
  let n := nat_of_ascii c in
  ((48 <=? n) && (n <=? 57) || (65 <=? n) && (n <=? 90)
   || (97 <=? n) && (n <=? 122) || (n =? 95))%nat.

(** [.replace(/^\//, '')] *)
Definition stripLeadingSlash (s : string) : string :=
  match s with
  | String c r => if Ascii.eqb c "/" then r else s
  | EmptyString => s
  end.

(** [.replace(/\/:[\w]+/g, '')], scanning left to right.  With [skipping]
    set the scan is inside a match and drops word characters; the first
    other character ends the match and is scanned afresh.  A match starts at
    a slash followed by a colon and one word character at least. *)
Fixpoint removeDynamic (skipping : bool) (s : string) : string :=
  match s with
  | EmptyString => EmptyString
  | String c r =>
      if skipping && isWordChar c then removeDynamic true r
      else
        match r with
        | String c1 (String c2 r2) =>
            if Ascii.eqb c "/" && Ascii.eqb c1 ":" && isWordChar c2
            then removeDynamic true r2
            else String c (removeDynamic false r)
        | _ => String c (removeDynamic false r)
        end
  end.

Definition removeDynamicSegments (s : string) : string :=
  removeDynamic false s.

Fixpoint mapString (f : ascii -> ascii) (s : string) : string :=
  match s with
  | EmptyString => EmptyString
  | String c r => String (f c) (mapString f r)
  end.

(** [.replace(/x/g, '_')] for a single character [x]. *)
Definition replaceChar (x : ascii) (s : string) : string :=
  mapString (fun c => if Ascii.eqb c x then "_"%char else c) s.

Definition upperChar (c : ascii) : ascii :=
  let n := nat_of_ascii c in
  if ((97 <=? n) && (n <=? 122))%nat then ascii_of_nat (n - 32) else c.

Definition toUpperCase (s : string) : string := mapString upperChar s.

(** [s.includes(':')] *)
Fixpoint includesColon (s : string) : bool :=
  match s with
  | EmptyString => false
  | String c r => Ascii.eqb c ":" || includesColon r
  end.

Definition routePathToScreenName (routePath : string) : string :=
  let name :=
    toUpperCase
      (replaceChar "-"
         (replaceChar "/"
            (removeDynamicSegments (stripLeadingSlash routePath)))) in
  if String.eqb name "" then "HOME"
  else if includesColon routePath then name +:+ "_DETAIL"
  else name.

(** ** The remaining callbacks of the provider ([QAContext.tsx]) *)

(** [{ ...prev, isOpen: b }] *)
Definition withIsOpen (b : bool) (prev : QAState.t) : QAState.t :=
  {| QAState.isOpen := b;
     QAState.currentSession := QAState.currentSession prev;
     QAState.testSessions := QAState.testSessions prev;
     QAState.checklists := QAState.checklists prev;
     QAState.bugs := QAState.bugs prev |}.

Definition togglePanel (prev : QAState.t) : QAState.t :=
  withIsOpen (negb (QAState.isOpen prev)) prev.

Definition openPanel (prev : QAState.t) : QAState.t := withIsOpen true prev.

Definition closePanel (prev : QAState.t) : QAState.t := withIsOpen false prev.

(** [setState({ ...DEFAULT_STATE, checklists: defaultChecklists })] *)
Definition resetState (defaultChecklists : list TestChecklist.t)
    (prev : QAState.t) : QAState.t :=
  seeded defaultChecklists.

(** One call of a state-changing callback of the context value, with the
    clock readings it makes. *)
Inductive Action :=
| TogglePanel
| OpenPanel
| ClosePanel
| UpdateTestStatus (testId : string) (st : TestStatus) (nt : option string)
                   (now : Z)
| AddTestItem (item : TestItem.t)
| RemoveTestItem (testId : string)
| ReportBug (bug : BugDraft.t) (nowId nowReported : Z)
| UpdateBugStatus (bugId : string) (st : BugStatus) (now : Z)
| DeleteBug (bugId : string)
| StartTestSession (name tester : string) (nowId nowStarted : Z)
| CompleteTestSession (nt : option string) (now : Z)
| DeleteSession (sessionId : string)
| ResetState (defaultChecklists : list TestChecklist.t).

Definition perform (prev : QAState.t) (a : Action) : QAState.t :=
  match a with
  | TogglePanel => togglePanel prev
  | OpenPanel => openPanel prev
  | ClosePanel => closePanel prev
  | UpdateTestStatus testId st nt now => updateTestStatus testId st nt now prev
  | AddTestItem item => addTestItem item prev
  | RemoveTestItem testId => removeTestItem testId prev
  | ReportBug bug nowId nowReported => reportBug bug nowId nowReported prev
  | UpdateBugStatus bugId st now => updateBugStatus bugId st now prev
  | DeleteBug bugId => deleteBug bugId prev
  | StartTestSession name tester nowId nowStarted =>
      startTestSession name tester nowId nowStarted prev
  | CompleteTestSession nt now => completeTestSession nt now prev
  | DeleteSession sessionId => deleteSession sessionId prev
  | ResetState defaultChecklists => resetState defaultChecklists prev
  end.

(** The state after a sequence of calls; React applies the updaters in the
    order they were queued. *)
Definition performAll (actions : list Action) (s : QAState.t) : QAState.t :=
  fold_left perform actions s.

(** ** File import ([qaStorage.ts]) *)

(** How the promise returned by [importQAState] settles. *)
Inductive Rejection :=
| ReadFailed                 (* [new Error('Failed to read file')] *)
| InvalidStructure           (* [new Error('Invalid QA state structure')] *)
| Thrown (e : Exn).          (* [reject(err)] in the [catch] *)

Inductive Settled :=
| Resolved (v : JSON)
| Rejected (why : Rejection).

Section FileImport.
Variable JSON_parse : string -> Completion JSON.

(** The [try] block of [reader.onload]. *)
Definition importQAState_try (content : string) : Completion Settled :=
  parsed ← JSON_parse content;
  ok ← validStructure parsed;
  if ok : bool then mret (Resolved parsed)
  else mret (Rejected InvalidStructure).

(** [importQAState]: [fileText] is what the [FileReader] delivers, the text
    of the file to [onload] or nothing when [onerror] fires. *)
Definition importQAState (fileText : option string) : Settled :=
  match fileText with
  | None => Rejected ReadFailed
  | Some content =>
      match importQAState_try content with
      | Normal settled => settled
      | Throw err => Rejected (Thrown err)
      end
  end.
End FileImport.

(** ** Screen detection from the URL ([QAContext.tsx]) *)

Definition lowerChar (c : ascii) : ascii :=
  let n := nat_of_ascii c in
  if ((65 <=? n) && (n <=? 90))%nat then ascii_of_nat (n + 32) else c.

Definition toLowerCase (s : string) : string := mapString lowerChar s.

(** [.replace(/x/g, y)] for single characters [x] and [y]. *)
Definition replaceCharWith (x y : ascii) (s : string) : string :=
  mapString (fun c => if Ascii.eqb c x then y else c) s.

(** [.replace('#', '')]: a string pattern replaces the first occurrence
    only. *)
Fixpoint removeFirstChar (x : ascii) (s : string) : string :=
  match s with
  | EmptyString => EmptyString
  | String c r => if Ascii.eqb c x then r else String c (removeFirstChar x r)
  end.

(** [s.includes(sub)] *)
Fixpoint includes (s sub : string) : bool :=
  match s with
  | EmptyString => String.prefix sub EmptyString
  | String _ r => String.prefix sub s || includes r sub
  end.

(** [a || b] on strings: the empty string is falsy. *)
Definition orString (a b : string) : string :=
  if String.eqb a "" then b else a.

(** [x?.screen || rest], with [None] for [undefined] and [null]. *)
Definition screenOr (c : option TestChecklist.t) (rest : option string)
    : option string :=
  match c with
  | Some c => if String.eqb (TestChecklist.screen c) "" then rest
              else Some (TestChecklist.screen c)
  | None => rest
  end.

(** [detectScreenFromURL].  [location] is [None] when there is no [window];
    otherwise it holds [window.location.pathname] and
    [window.location.hash]. *)
Definition detectScreenFromURL (location : option (string * string))
    (checklists : list TestChecklist.t) : option string :=
  match location with
  | None => None
  | Some (pathname, hash) =>
      let path := toLowerCase pathname in
      let hash := removeFirstChar "#" (toLowerCase hash) in
      let searchPath := orString hash path in
      let matches c :=
        let screenLower :=
          replaceCharWith "_" "-" (toLowerCase (TestChecklist.screen c)) in
        includes searchPath screenLower
        || includes searchPath (toLowerCase (TestChecklist.screen c)) in
      match find matches checklists with
      | Some c => Some (TestChecklist.screen c)
      | None =>
          if String.eqb searchPath "/" || String.eqb searchPath ""
          then
            let homeScreen :=
              find (fun c =>
                      String.eqb (TestChecklist.screen c) "HOME"
                      || String.eqb (TestChecklist.screen c) "DASHBOARD"
                      || String.eqb (TestChecklist.screen c) "MAIN")
                   checklists in
            screenOr homeScreen (screenOr (head checklists) None)
          else None
      end
  end.

(** ** Test suggestions ([cli/jsxParser.ts], [cli/index.ts]) *)

Module ExtractedButton.
Record t := mk {
  label : string;
  type : option string;
  onClick : option string;
  disabled : option bool
}.
End ExtractedButton.

Module ExtractedInput.
Record t := mk {
  name : option string;
  type : string;
  placeholder : option string;
  label : option string;
  required : option bool
}.
End ExtractedInput.

Module ExtractedSelect.
Record t := mk {
  name : option string;
  label : option string;
  options : list string;
  multiple : option bool
}.
End ExtractedSelect.

Module ExtractedLink.
Record t := mk {
  to : string;
  text : string
}.
End ExtractedLink.

Module ExtractedModal.
Record t := mk {
  name : option string;
  trigger : option string
}.
End ExtractedModal.

Module ExtractedForm.
Record t := mk {
  id : option string;
  onSubmit : option string;
  fields : list string
}.
End ExtractedForm.

Module ComponentAnalysis.
Record t := mk {
  buttons : list ExtractedButton.t;
  inputs : list ExtractedInput.t;
  selects : list ExtractedSelect.t;
  links : list ExtractedLink.t;
  modals : list ExtractedModal.t;
  forms : list ExtractedForm.t;
  tables : bool;
  pagination : bool;
  search : bool;
  dataFetching : bool;
  loadingState : bool;
  errorState : bool;
  emptyState : bool
}.
End ComponentAnalysis.

(** The double-quote character of the templates. *)
Definition dquote : string := String "034"%char EmptyString.

(** [a || b] where [a] is an optional string. *)
Definition orElse (a : option string) (b : string) : string :=
  match a with
  | Some s => orString s b
  | None => b
  end.

(** [s.substring(0, n)] *)
Fixpoint substring0 (n : nat) (s : string) : string :=
  match n, s with
  | S n', String c r => String c (substring0 n' r)
  | _, _ => EmptyString
  end.

(** [/a|b|c/i.test(s)] for alternatives that are plain lower-case words. *)
Definition testWordsI (words : list string) (s : string) : bool :=
  existsb (includes (toLowerCase s)) words.

(** [set.add(x)] on a [Set] kept in insertion order. *)
Definition setAdd (seen : list string) (x : string) : list string :=
  if existsb (String.eqb x) seen then seen else seen ++ [x].

(** [[...new Set(tests)]] *)
Definition uniqueInOrder (tests : list string) : list string :=
  fold_left setAdd tests [].

Definition baselineTest : string := "Screen loads without errors".

(** The pushes of one iteration of the loop over the buttons. *)
Definition buttonTests (btn : ExtractedButton.t) : list string :=
  if String.eqb (ExtractedButton.label btn) "" then []
  else
    let label := substring0 30 (ExtractedButton.label btn) in
    let quoted := dquote +:+ label +:+ dquote in
    [quoted +:+ " button is clickable and functional"]
    ++ (if testWordsI ["submit"; "save"; "send"] (ExtractedButton.label btn)
        then [quoted +:+ " button submits data correctly"] else [])
    ++ (if testWordsI ["delete"; "remove"] (ExtractedButton.label btn)
        then [quoted +:+ " button shows confirmation before action"] else [])
    ++ (if testWordsI ["cancel"; "close"] (ExtractedButton.label btn)
        then [quoted +:+ " button dismisses/closes correctly"] else []).

(** [input.label || input.name || input.placeholder || input.type] *)
Definition fieldNameOf (input : ExtractedInput.t) : string :=
  orElse (ExtractedInput.label input)
    (orElse (ExtractedInput.name input)
       (orElse (ExtractedInput.placeholder input) (ExtractedInput.type input))).

Definition inputTests (input : ExtractedInput.t) : list string :=
  let fieldName := fieldNameOf input in
  if String.eqb fieldName "" || String.eqb fieldName "text" then []
  else
    let quoted := dquote +:+ fieldName +:+ dquote in
    [quoted +:+ " field accepts valid input"]
    ++ (if String.eqb (ExtractedInput.type input) "email"
        then [quoted +:+ " validates email format"] else [])
    ++ (if String.eqb (ExtractedInput.type input) "password"
        then [quoted +:+ " masks password input"] else [])
    ++ (if String.eqb (ExtractedInput.type input) "number"
        then [quoted +:+ " accepts only numeric values"] else [])
    ++ (if String.eqb (ExtractedInput.type input) "tel"
        then [quoted +:+ " validates phone number format"] else [])
    ++ (match ExtractedInput.required input with
        | Some true => [quoted +:+ " shows required field error when empty"]
        | _ => []
        end).

Definition selectTests (select : ExtractedSelect.t) : list string :=
  let name :=
    orElse (ExtractedSelect.label select)
      (orElse (ExtractedSelect.name select) "dropdown") in
  let quoted := dquote +:+ name +:+ dquote in
  match ExtractedSelect.options select with
  | [] => [quoted +:+ " dropdown displays available options"]
  | options =>
      [quoted +:+ " dropdown shows "
       +:+ number_to_string (Z.of_nat (length options)) +:+ " options"]
  end.

Definition modalTests (modal : ExtractedModal.t) : list string :=
  let name := orElse (ExtractedModal.name modal) "Modal" in
  [name +:+ " opens when triggered"; name +:+ " closes when dismissed"].

Definition linkTests (link : ExtractedLink.t) : list string :=
  if String.eqb (ExtractedLink.text link) "" then []
  else [dquote +:+ ExtractedLink.text link +:+ dquote
        +:+ " link navigates to correct destination"].

(** Everything [generateSpecificTests] pushes after the baseline test, in
    the order of the pushes. *)
Definition specificPushes (analysis : ComponentAnalysis.t) : list string :=
  flat_map buttonTests (ComponentAnalysis.buttons analysis)
  ++ flat_map inputTests (ComponentAnalysis.inputs analysis)
  ++ flat_map selectTests (ComponentAnalysis.selects analysis)
  ++ (match ComponentAnalysis.forms analysis with
      | [] => []
      | _ => ["Form validates required fields before submission";
              "Form shows appropriate error messages for invalid input";
              "Form submits successfully with valid data"]
      end)
  ++ flat_map modalTests (ComponentAnalysis.modals analysis)
  ++ flat_map linkTests (take 3 (ComponentAnalysis.links analysis))
  ++ (if ComponentAnalysis.tables analysis
      then ["Table/list displays data correctly";
            "Table rows are properly formatted"] else [])
  ++ (if ComponentAnalysis.pagination analysis
      then ["Pagination controls are visible";
            "Next/Previous page buttons work correctly"] else [])
  ++ (if ComponentAnalysis.search analysis
      then ["Search input accepts text";
            "Search filters results correctly"] else [])
  ++ (if ComponentAnalysis.dataFetching analysis
      then ["Data loads successfully from API"]
           ++ (if ComponentAnalysis.loadingState analysis
               then ["Loading indicator displays while fetching"] else [])
           ++ (if ComponentAnalysis.errorState analysis
               then ["Error state displays when API fails"] else [])
           ++ (if ComponentAnalysis.emptyState analysis
               then ["Empty state displays when no data"] else [])
      else []).

Definition generateSpecificTests (componentName : string)
    (analysis : ComponentAnalysis.t) : list string :=
  uniqueInOrder (baselineTest :: specificPushes analysis).

(** The [TEST_SUGGESTIONS] table: per category, in the order of the
    object's keys, the patterns (as their alternatives) with their tests. *)
Definition TEST_SUGGESTIONS : list (list (list string * list string)) :=
  [ (* form *)
    [ (["form"; "input"; "submit"],
       ["Form validation works correctly";
        "Submit button is enabled/disabled appropriately";
        "Error messages display for invalid input"]) ];
    (* auth *)
    [ (["login"; "signin"; "auth"],
       ["Login form accepts credentials";
        "Shows error for invalid credentials";
        "Redirects after successful login"]);
      (["signup"; "register"],
       ["Registration form validates all fields";
        "Password requirements are enforced";
        "Success message shown after registration"]) ];
    (* list *)
    [ (["list"; "table"; "grid"],
       ["Data loads and displays correctly";
        "Pagination works (if applicable)";
        "Empty state shows when no data"]) ];
    (* detail *)
    [ (["detail"; "view"; "profile"],
       ["Details load correctly";
        "Edit button is visible (if applicable)";
        "Back navigation works"]) ];
    (* settings *)
    [ (["setting"; "config"; "preference"],
       ["Settings load with current values";
        "Changes can be saved";
        "Cancel reverts changes"]) ];
    (* dashboard *)
    [ (["dashboard"; "home"; "overview"],
       ["Dashboard loads with data";
        "Charts/widgets display correctly";
        "Refresh updates data"]) ] ].

Section Patterns.
(** [path.basename] of Node. *)
Variable path_basename : string -> string.

(** The inner loop over the patterns of one category: the tests of the
    first pattern that matches the file name or the content, then
    [break]. *)
Definition categoryTests (basename contentLower : string)
    (patterns : list (list string * list string)) : list string :=
  match find (fun p => testWordsI (fst p) basename
                       || testWordsI (fst p) contentLower) patterns with
  | Some p => snd p
  | None => []
  end.

Definition suggestTestsFromPatterns (filePath content : string)
    : list string :=
  let basename := toLowerCase (path_basename filePath) in
  let contentLower := toLowerCase content in
  uniqueInOrder
    ([baselineTest]
     ++ flat_map (categoryTests basename contentLower) TEST_SUGGESTIONS
     ++ (if includes contentLower "button" || includes contentLower "onclick"
         then ["All buttons are clickable and functional"] else [])
     ++ (if includes contentLower "fetch" || includes contentLower "usequery"
            || includes contentLower "axios"
         then ["Data fetches successfully";
               "Loading state displays while fetching";
               "Error state handles fetch failures"] else [])
     ++ (if includes contentLower "modal" || includes contentLower "dialog"
         then ["Modal opens and closes correctly"] else [])
     ++ (if includes contentLower "navigation" || includes contentLower "link"
            || includes contentLower "router"
         then ["Navigation links work correctly"] else [])).
End Patterns.

(** ** Component names and the choice of suggestions ([cli/index.ts]) *)

Definition isLowerChar (c : ascii) : bool :=
  let n := nat_of_ascii c in ((97 <=? n) && (n <=? 122))%nat.

Definition isUpperChar (c : ascii) : bool :=
  let n := nat_of_ascii c in ((65 <=? n) && (n <=? 90))%nat.

(** [.replace(/Page$|Screen$|View$|Calculator$|Calendar$/i, '')]: the scan
    stops at the leftmost position from which one of the words, in any
    case, reaches the end of the string, and cuts the string there. *)
Fixpoint stripScreenSuffix (s : string) : string :=
  if existsb (String.eqb (toLowerCase s))
             ["page"; "screen"; "view"; "calculator"; "calendar"]
  then EmptyString
  else
    match s with
    | EmptyString => EmptyString
    | String c r => String c (stripScreenSuffix r)
    end.

(** [.replace(/([a-z])([A-Z])/g, '$1_$2')]: a lower-case letter followed by
    an upper-case one gets an underscore in between; the scan goes on
    after the pair. *)
Fixpoint splitCamelCase (s : string) : string :=
  match s with
  | EmptyString => EmptyString
  | String c r =>
      match r with
      | String d r' =>
          if isLowerChar c && isUpperChar d
          then String c (String "_" (String d (splitCamelCase r')))
          else String c (splitCamelCase r)
      | EmptyString => String c EmptyString
      end
  end.

Section Components.
(** [path.extname] and the two-argument [path.basename] of Node. *)
Variable path_extname : string -> string.
Variable path_basename_ext : string -> string -> string.
(** [path.basename] with one argument. *)
Variable path_basename : string -> string.
(** [analyzeComponent] of [jsxParser.ts]. *)
Variable analyzeComponent : string -> ComponentAnalysis.t.

Definition extractComponentName (filePath : string) : string :=
  let ext := path_extname filePath in
  let basename := path_basename_ext filePath ext in
  let nameWithoutSuffix := stripScreenSuffix basename in
  replaceChar "-" (toUpperCase (splitCamelCase nameWithoutSuffix)).

Definition suggestTestsForComponent (filePath content : string)
    : list string :=
  let componentName := extractComponentName filePath in
  let analysis := analyzeComponent content in
  let specificTests := generateSpecificTests componentName analysis in
  if (length specificTests <=? 1)%nat
  then suggestTestsFromPatterns path_basename filePath content
  else specificTests.
End Components.

(** ** Component names of file-based routes ([cli/routerParser.ts]) *)

Definition isSeparator (c : ascii) : bool :=
  Ascii.eqb c "-" || Ascii.eqb c "_".

(** The characters the regular-expression dot does not match. *)
Definition isLineTerminator (c : ascii) : bool :=
  Ascii.eqb c "010" || Ascii.eqb c "013".

(** [.replace(/[-_](.)/g, (_, c) => c.toUpperCase())]: a separator and the
    character after it are replaced by that character in upper case; the
    scan goes on after the pair. *)
Fixpoint capitalizeAfterSeparators (s : string) : string :=
  match s with
  | EmptyString => EmptyString
  | String c r =>
      match r with
      | String d r' =>
          if isSeparator c && negb (isLineTerminator d)
          then String (upperChar d) (capitalizeAfterSeparators r')
          else String c (capitalizeAfterSeparators r)
      | EmptyString => String c EmptyString
      end
  end.

(** [.replace(/^(.)/, (_, c) => c.toUpperCase())] *)
Definition capitalizeFirst (s : string) : string :=
  match s with
  | EmptyString => EmptyString
  | String c r => if isLineTerminator c then s else String (upperChar c) r
  end.

Definition toPascalCase (str : string) : string :=
  capitalizeFirst (capitalizeAfterSeparators str).

(** ** Vocabulary of the properties *)

(** One [updateTestStatus] call with the clock reading it sees. *)
Record StatusCall := mkStatusCall {
  call_testId : string;
  call_status : TestStatus;
  call_notes : option string;
  call_now : Z
}.

Definition applyCall (s : QAState.t) (c : StatusCall) : QAState.t :=
  updateTestStatus (call_testId c) (call_status c) (call_notes c) (call_now c) s.

Definition runCalls (calls : list StatusCall) (s : QAState.t) : QAState.t :=
  fold_left applyCall calls s.

(** The four counters of the current session agree with the items. *)
Definition countersAgree (s : QAState.t) : Prop :=
  exists session,
    QAState.currentSession s = Some session /\
    TestSession.totalTests session = length (allItems (QAState.checklists s)) /\
    TestSession.passedTests session
      = countStatus passed (allItems (QAState.checklists s)) /\
    TestSession.failedTests session
      = countStatus failed (allItems (QAState.checklists s)) /\
    TestSession.skippedTests session
      = countStatus skipped (allItems (QAState.checklists s)).

(** A state that holds the given bugs and nothing else. *)
Definition stateOfBugs (bugs : list BugReport.t) : QAState.t :=
  {| QAState.isOpen := false;
     QAState.currentSession := None;
     QAState.testSessions := [];
     QAState.checklists := [];
     QAState.bugs := bugs |}.

Definition sampleDraft : BugDraft.t :=
  {| BugDraft.title := "Save button does nothing";
     BugDraft.description := "Clicking Save has no effect";
     BugDraft.severity := high;
     BugDraft.status := open;
     BugDraft.screen := "SETTINGS";
     BugDraft.stepsToReproduce := ["Open settings"; "Click Save"];
     BugDraft.expectedBehavior := "Settings are saved";
     BugDraft.actualBehavior := "Nothing happens";
     BugDraft.screenshot := None;
     BugDraft.consoleErrors := None;
     BugDraft.sessionMetadata := None;
     BugDraft.reportedBy := "tester";
     BugDraft.fixedAt := None;
     BugDraft.fixedIn := None |}.

(** A bug filed at clock reading 50 and marked fixed at clock reading 100. *)
Definition fixedOnce : QAState.t :=
  updateBugStatus "bug_50" fixed 100
    (reportBug sampleDraft 50 50 DEFAULT_STATE).

(** No item of the state carries the id. *)
Definition testIdAbsent (testId : string) (s : QAState.t) : Prop :=
  Forall (fun item => TestItem.id item <> testId)
         (allItems (QAState.checklists s)).

(** The id occurs nowhere among the bugs of the state: no bug carries it and
    the current session, if there is one, does not list it. *)
Definition bugIdAbsent (bugId : string) (s : QAState.t) : Prop :=
  Forall (fun bug => BugReport.id bug <> bugId) (QAState.bugs s) /\
  Forall (fun i => i <> bugId)
         (from_option TestSession.bugsFound [] (QAState.currentSession s)).

(** No historical session carries the id. *)
Definition sessionIdAbsent (sessionId : string) (s : QAState.t) : Prop :=
  Forall (fun session => TestSession.id session <> sessionId)
         (QAState.testSessions s).

(** [s] with its current-session slot replaced. *)
Definition withCurrentSession (cs : option TestSession.t) (s : QAState.t)
    : QAState.t :=
  {| QAState.isOpen := QAState.isOpen s;
     QAState.currentSession := cs;
     QAState.testSessions := QAState.testSessions s;
     QAState.checklists := QAState.checklists s;
     QAState.bugs := QAState.bugs s |}.

Definition sampleItem : TestItem.t :=
  {| TestItem.id := "home_001";
     TestItem.screen := "HOME";
     TestItem.category := Functionality;
     TestItem.description := "Screen loads without errors";
     TestItem.status := not_started;
     TestItem.notes := None;
     TestItem.testedAt := None |}.

(** A session started on an empty checklist set, then one item added:
    [addTestItem] leaves the session's counters as they were. *)
Definition staleCounters : QAState.t :=
  addTestItem sampleItem (startTestSession "run" "tester" 1 1 DEFAULT_STATE).

(** One bug filed at clock reading 50, no session active. *)
Definition oneBug : QAState.t := reportBug sampleDraft 50 50 DEFAULT_STATE.

(** A saved item carries a result worth keeping: a status other than
    [not_started], notes that are not empty, or a [testedAt] stamp other
    than 0. *)
Definition carriesHistory (s : TestItem.t) : Prop :=
  TestItem.status s <> not_started \/
  (TestItem.notes s <> None /\ TestItem.notes s <> Some "") \/
  (TestItem.testedAt s <> None /\ TestItem.testedAt s <> Some 0%Z).

#[global] Instance carriesHistory_dec s : Decision (carriesHistory s).
Proof. unfold carriesHistory. solve_decision. Defined.

(** The last saved item, in checklist order, that has the given id and
    carries history. *)
Definition lastSaved (testId : string) (saved : list TestItem.t)
    : option TestItem.t :=
  last (filter (fun s => TestItem.id s = testId /\ carriesHistory s) saved).

(** [r] is the supplied item [d] after reconciliation against the saved
    items: [d] with the status, notes and [testedAt] of the last saved item
    of the same id that carries history, and [d] itself when there is none. *)
Definition mergedFrom (saved : list TestItem.t) (d r : TestItem.t) : Prop :=
  match lastSaved (TestItem.id d) saved with
  | Some s =>
      r = {| TestItem.id := TestItem.id d;
             TestItem.screen := TestItem.screen d;
             TestItem.category := TestItem.category d;
             TestItem.description := TestItem.description d;
             TestItem.status := TestItem.status s;
             TestItem.notes := TestItem.notes s;
             TestItem.testedAt := TestItem.testedAt s |}
  | None => r = d
  end.

Definition checklistOf (screen : string) (items : list TestItem.t)
    : TestChecklist.t :=
  {| TestChecklist.screen := screen; TestChecklist.items := items |}.

Definition itemWith (testId : string) (st : TestStatus)
    (nt : option string) (at_ : option Z) : TestItem.t :=
  {| TestItem.id := testId;
     TestItem.screen := "HOME";
     TestItem.category := Functionality;
     TestItem.description := "Screen loads without errors";
     TestItem.status := st;
     TestItem.notes := nt;
     TestItem.testedAt := at_ |}.

(** Every character of the string satisfies [p]. *)
Fixpoint allChars (p : ascii -> bool) (s : string) : bool :=
  match s with
  | EmptyString => true
  | String c r => p c && allChars p r
  end.

(** A character that the deriver's replacements and upper-casing leave
    alone: not a slash, not a hyphen, not a lower-case letter. *)
Definition settledChar (c : ascii) : bool :=
  negb (Ascii.eqb c "/") && negb (Ascii.eqb c "-")
  && Ascii.eqb (upperChar c) c.

(** The structural check in words: an object with a boolean [isOpen] and
    arrays under [testSessions], [checklists] and [bugs]. *)
Definition wellShaped (v : JSON) : Prop :=
  exists props b sessions checklists bugs,
    v = JObject props /\
    lookupProperty "isOpen" props = Some (JBool b) /\
    lookupProperty "testSessions" props = Some (JArray sessions) /\
    lookupProperty "checklists" props = Some (JArray checklists) /\
    lookupProperty "bugs" props = Some (JArray bugs).

Definition sampleBlob : string :=
  "{'isOpen':true,'testSessions':[],'checklists':[],'bugs':[]}".

Definition sampleParsed : JSON :=
  JObject [("isOpen", JBool true); ("testSessions", JArray []);
           ("checklists", JArray []); ("bugs", JArray [])].

(** A stand-in for [JSON.parse] that knows one document. *)
Definition sampleParse (text : string) : Completion JSON :=
  if String.eqb text sampleBlob then Normal sampleParsed else Throw SyntaxError.

(** [a] may stand in front of [b] in the order of the retry: it did not
    start earlier. *)
Definition startsNoEarlier (a b : TestSession.t) : Prop :=
  (TestSession.startedAt b <= TestSession.startedAt a)%Z.

Definition sessionAt (n : Z) : TestSession.t :=
  {| TestSession.id := "session_" +:+ number_to_string n;
     TestSession.name := "run";
     TestSession.startedAt := n;
     TestSession.completedAt := Some (n + 1)%Z;
     TestSession.totalTests := 0;
     TestSession.passedTests := 0;
     TestSession.failedTests := 0;
     TestSession.skippedTests := 0;
     TestSession.bugsFound := [];
     TestSession.notes := None;
     TestSession.tester := "tester" |}.

(** ** Vocabulary of the further properties *)

(** Every id the current session lists in [bugsFound] is the id of a bug
    of the state. *)
Definition bugsFoundKnown (s : QAState.t) : Prop :=
  Forall (fun i => In i (map BugReport.id (QAState.bugs s)))
         (from_option TestSession.bugsFound [] (QAState.currentSession s)).

(** The session in the current slot is not completed and every session in
    the history is. *)
Definition sessionsFiled (s : QAState.t) : Prop :=
  from_option (fun session => TestSession.completedAt session = None) True
              (QAState.currentSession s) /\
  Forall (fun session => TestSession.completedAt session <> None)
         (QAState.testSessions s).

(** The counters of a session do not add up to more than its total. *)
Definition countersBounded (session : TestSession.t) : Prop :=
  (TestSession.passedTests session + TestSession.failedTests session
   + TestSession.skippedTests session <= TestSession.totalTests session)%nat.

Definition allCountersBounded (s : QAState.t) : Prop :=
  from_option countersBounded True (QAState.currentSession s) /\
  Forall countersBounded (QAState.testSessions s).

(** A short testing pass used to instantiate the properties. *)
Definition samplePass : list Action :=
  [ AddTestItem sampleItem;
    StartTestSession "run" "tester" 100 100;
    ReportBug sampleDraft 101 101;
    UpdateTestStatus "home_001" failed (Some "see bug") 102;
    UpdateBugStatus "bug_101" fixed 103;
    CompleteTestSession (Some "done") 104 ].

(** The checklists of the state after the sample pass, with one result. *)
Definition testedChecklists : list TestChecklist.t :=
  QAState.checklists (performAll samplePass (seeded [])).

(** The number of checklists of the given screen. *)
Definition screenCount (screen : string) (cls : list TestChecklist.t) : nat :=
  length (filter (fun c => TestChecklist.screen c = screen) cls).

(** [s] with its checklists replaced. *)
Definition withChecklists (cls : list TestChecklist.t) (s : QAState.t)
    : QAState.t :=
  {| QAState.isOpen := QAState.isOpen s;
     QAState.currentSession := QAState.currentSession s;
     QAState.testSessions := QAState.testSessions s;
     QAState.checklists := cls;
     QAState.bugs := QAState.bugs s |}.

(** The order [Array.prototype.sort()] puts strings in. *)
Definition stringLe (a b : string) : Prop := String.leb a b = true.

(** The analysis holds nothing [generateSpecificTests] has a test for:
    no button with a label, no input with a field name other than ['text'],
    no select, form or modal, no text on the first three links, and none
    of the table, pagination, search and data-fetching flags. *)
Definition nothingFound (analysis : ComponentAnalysis.t) : bool :=
  forallb (fun btn => String.eqb (ExtractedButton.label btn) "")
          (ComponentAnalysis.buttons analysis)
  && forallb (fun input => String.eqb (fieldNameOf input) ""
                           || String.eqb (fieldNameOf input) "text")
             (ComponentAnalysis.inputs analysis)
  && (length (ComponentAnalysis.selects analysis) =? 0)%nat
  && (length (ComponentAnalysis.forms analysis) =? 0)%nat
  && (length (ComponentAnalysis.modals analysis) =? 0)%nat
  && forallb (fun link => String.eqb (ExtractedLink.text link) "")
             (take 3 (ComponentAnalysis.links analysis))
  && negb (ComponentAnalysis.tables analysis)
  && negb (ComponentAnalysis.pagination analysis)
  && negb (ComponentAnalysis.search analysis)
  && negb (ComponentAnalysis.dataFetching analysis).

(** The last character of a string. *)
Fixpoint lastChar (s : string) : option ascii :=
  match s with
  | EmptyString => None
  | String c r => match lastChar r with Some d => Some d | None => Some c end
  end.

Definition isAlphaNumeric (c : ascii) : bool :=
  let n := nat_of_ascii c in
  ((48 <=? n) && (n <=? 57))%nat || isUpperChar c || isLowerChar c.

(** A kebab-case or snake_case name: letters and digits, with every hyphen
    or underscore followed by a letter or a digit. *)
Fixpoint wordsJoined (s : string) : bool :=
  match s with
  | EmptyString => true
  | String c r =>
      if isSeparator c
      then match r with
           | String d _ => isAlphaNumeric d && wordsJoined r
           | EmptyString => false
           end
      else isAlphaNumeric c && wordsJoined r
  end.

(** The first character, if any, satisfies [p]. *)
Definition firstChar (p : ascii -> bool) (s : string) : bool :=
  match s with
  | EmptyString => true
  | String c _ => p c
  end.

(** ** Screen detection of the CLI ([cli/index.ts]) *)

Module ParsedRoute.
Record t := mk {
  path : string;
  componentName : string;
  filePath : option string
}.
End ParsedRoute.

Inductive RouterType :=
| createBrowserRouter | Routes | file_pattern | no_router.

Module RouterParserResult.
Record t := mk {
  type : RouterType;
  routes : list ParsedRoute.t;
  configFile : option string
}.
End RouterParserResult.

Module DetectedScreen.
Record t := mk {
  name : string;
  filePath : string;
  suggestedTests : list string
}.
End DetectedScreen.

(** Some suffix of [s], [s] itself included, satisfies [p]. *)
Fixpoint anySuffix (p : string -> bool) (s : string) : bool :=
  p s || match s with
         | EmptyString => false
         | String _ r => anySuffix p r
         end.

(** [/word\.(tsx|jsx)$/.test(s)] *)
Definition endsWithSource (word s : string) : bool :=
  anySuffix (fun t => String.eqb t (word +:+ ".tsx")
                      || String.eqb t (word +:+ ".jsx")) s.

Fixpoint dropChars (n : nat) (s : string) : string :=
  match n, s with
  | S n', String _ r => dropChars n' r
  | _, _ => s
  end.

(** [/dir\/.*word\.(tsx|jsx)$/.test(s)], [dir] given with its slash: the
    dot matches no line terminator and [$] the end of the string only. *)
Definition underDirectory (dir word s : string) : bool :=
  anySuffix (fun t =>
               String.prefix dir t
               && (let rest := dropChars (String.length dir) t in
                   allChars (fun c => negb (isLineTerminator c)) rest
                   && endsWithSource word rest)) s.

(** [SCREEN_PATTERNS.some(p => p.test(normalizedPath))] *)
Definition matchesScreenPattern (normalizedPath : string) : bool :=
  endsWithSource "Page" normalizedPath
  || endsWithSource "Screen" normalizedPath
  || endsWithSource "View" normalizedPath
  || underDirectory "pages/" "" normalizedPath
  || underDirectory "screens/" "" normalizedPath
  || underDirectory "views/" "" normalizedPath
  || underDirectory "routes/" "" normalizedPath
  || underDirectory "components/" "Page" normalizedPath
  || underDirectory "components/" "Calculator" normalizedPath
  || underDirectory "components/" "Calendar" normalizedPath.

(** A [for ... of] loop whose body may throw. *)
Fixpoint forEach {A S : Type} (body : S -> A -> Completion S) (l : list A)
    (s : S) : Completion S :=
  match l with
  | [] => Normal s
  | x :: r => s' ← body s x; forEach body r s'
  end.

Section DetectScreens.
Variable path_extname : string -> string.
Variable path_basename_ext : string -> string -> string.
Variable path_basename : string -> string.
Variable analyzeComponent : string -> ComponentAnalysis.t.
(** [path.relative(projectRoot, filePath)] *)
Variable path_relative : string -> string.
(** [fs.readFileSync(file, 'utf-8')], which may throw. *)
Variable readFileSync : string -> Completion string.
(** What [detectRoutes(projectRoot)], [findComponentFile(projectRoot, name)]
    and [getAllFiles(searchDir)] find on the disk. *)
Variable routerResult : RouterParserResult.t.
Variable findComponentFile : string -> option string.
Variable allFiles : list string.

(** The two variables of [detectScreens]: the screens pushed so far and
    the set of their names. *)
Definition Detection : Type := list DetectedScreen.t * gset string.

(** The body of the loop over the routes. *)
Definition routeStep (st : Detection) (route : ParsedRoute.t)
    : Completion Detection :=
  let '(screens, seenScreenNames) := st in
  let screenName := routePathToScreenName (ParsedRoute.path route) in
  if decide (screenName ∈ seenScreenNames) then mret st
  else
    let componentFile := findComponentFile (ParsedRoute.componentName route) in
    suggestedTests ←
      match componentFile with
      | Some file =>
          if String.eqb file "" then mret [baselineTest]
          else
            content ← readFileSync file;
            mret (suggestTestsForComponent path_extname path_basename_ext
                    path_basename analyzeComponent file content)
      | None => mret [baselineTest]
      end;
    mret (screens
          ++ [ {| DetectedScreen.name := screenName;
                  DetectedScreen.filePath :=
                    orElse (ParsedRoute.filePath route)
                      (orElse componentFile (ParsedRoute.componentName route));
                  DetectedScreen.suggestedTests := suggestedTests |} ],
          {[screenName]} ∪ seenScreenNames).

(** The body of the loop over the source files. *)
Definition fileStep (st : Detection) (filePath : string)
    : Completion Detection :=
  let '(screens, seenScreenNames) := st in
  let relativePath := path_relative filePath in
  let normalizedPath := replaceCharWith "\" "/" relativePath in
  if matchesScreenPattern normalizedPath then
    let name := extractComponentName path_extname path_basename_ext filePath in
    if decide (name ∈ seenScreenNames) then mret st
    else
      content ← readFileSync filePath;
      mret (screens
            ++ [ {| DetectedScreen.name := name;
                    DetectedScreen.filePath := relativePath;
                    DetectedScreen.suggestedTests :=
                      suggestTestsForComponent path_extname path_basename_ext
                        path_basename analyzeComponent filePath content |} ],
            {[name]} ∪ seenScreenNames)
  else mret st.

(** Step 1, taken when [routerResult.type !== 'none'] and there are
    routes. *)
Definition detectFromRoutes : Completion Detection :=
  match RouterParserResult.type routerResult,
        RouterParserResult.routes routerResult with
  | no_router, _ => mret ([], ∅)
  | _, [] => mret ([], ∅)
  | _, routes => forEach routeStep routes ([], ∅)
  end.

Definition detectScreens : Completion (list DetectedScreen.t) :=
  afterRoutes ← detectFromRoutes;
  afterFiles ← forEach fileStep allFiles afterRoutes;
  mret (fst afterFiles).
End DetectScreens.

(** The names pushed so far are all different and all in the set. *)
Definition namesTracked (st : Detection) : Prop :=
  NoDup (map DetectedScreen.name (fst st)) /\
  Forall (fun x => x ∈ snd st) (map DetectedScreen.name (fst st)).

Definition emptyAnalysis : ComponentAnalysis.t :=
  {| ComponentAnalysis.buttons := [];
     ComponentAnalysis.inputs := [];
     ComponentAnalysis.selects := [];
     ComponentAnalysis.links := [];
     ComponentAnalysis.modals := [];
     ComponentAnalysis.forms := [];
     ComponentAnalysis.tables := false;
     ComponentAnalysis.pagination := false;
     ComponentAnalysis.search := false;
     ComponentAnalysis.dataFetching := false;
     ComponentAnalysis.loadingState := false;
     ComponentAnalysis.errorState := false;
     ComponentAnalysis.emptyState := false |}.

(** A project with two routes to the same screen and a page file of that
    screen. *)
Definition sampleDetection : Completion (list DetectedScreen.t) :=
  detectScreens
    (fun _ => ".tsx") (fun _ _ => "UsersPage") (fun _ => "UsersPage.tsx")
    (fun _ => emptyAnalysis)
    (fun p => p)
    (fun _ => Normal "")
    {| RouterParserResult.type := createBrowserRouter;
       RouterParserResult.routes :=
         [ParsedRoute.mk "/users" "Users" None;
          ParsedRoute.mk "users" "UserList" None];
       RouterParserResult.configFile := Some "src/App.tsx" |}
    (fun _ => None)
    ["src/pages/UsersPage.tsx"].

(** * Properties *)

(** ** Items of a checklist collection *)

Lemma allItems_mapItems f cls :
  allItems (mapItems f cls) = map f (allItems cls).
Proof.
  unfold allItems, mapItems.
  induction cls as [|c cls IH]; simpl; [done|].
  by rewrite IH, map_app.
Qed.

Lemma mapItems_id_ext f cls :
  (forall item, In item (allItems cls) -> f item = item) ->
  mapItems f cls = cls.
Proof.
  unfold allItems, mapItems.
  induction cls as [|[scr its] cls IH]; simpl; intros H; [done|].
  f_equal.
  - f_equal. rewrite <- (map_id its) at 2.
    apply map_ext_in. intros a Ha. apply H, in_or_app. by left.
  - apply IH. intros a Ha. apply H, in_or_app. by right.
Qed.

(** ** updateTestStatus *)

Lemma updateTestStatus_session_active testId st nt now s :
  is_Some (QAState.currentSession s) ->
  countersAgree (updateTestStatus testId st nt now s).
Proof.
  intros [session Hs]. unfold countersAgree, updateTestStatus.
  simpl. rewrite Hs. eexists. split; [reflexivity|]. simpl. done.
Qed.

Lemma runCalls_snoc calls c s :
  runCalls (calls ++ [c]) s = applyCall (runCalls calls s) c.
Proof. unfold runCalls. by rewrite fold_left_app. Qed.

Lemma runCalls_active calls s :
  is_Some (QAState.currentSession s) ->
  is_Some (QAState.currentSession (runCalls calls s)).
Proof.
  revert s. induction calls as [|c calls IH]; intros s Hs; [done|].
  simpl. apply IH. destruct Hs as [session Hs].
  unfold applyCall, updateTestStatus. simpl. rewrite Hs. by eexists.
Qed.

(** C2: starting from a state with an active session, after each call of
    any sequence of [updateTestStatus] calls (that is, after every
    non-empty prefix of the sequence) the current session's [totalTests]
    is the number of items across all checklists and [passedTests],
    [failedTests] and [skippedTests] are the numbers of items whose status
    is [passed], [failed] and [skipped]. *)
Theorem updateTestStatus_counters_recomputed :
  forall (calls : list StatusCall) (s : QAState.t) (n : nat),
    is_Some (QAState.currentSession s) ->
    (0 < n <= length calls)%nat ->
    countersAgree (runCalls (take n calls) s).
Proof.
  intros calls s n Hs [Hpos Hle].
  assert (Hlen : length (take n calls) = n) by (rewrite length_take; lia).
  destruct (take n calls) as [|c0 pre] eqn:Hpre using rev_ind.
  - simpl in Hlen. lia.
  - rewrite runCalls_snoc. unfold applyCall.
    apply updateTestStatus_session_active.
    by apply runCalls_active.
Qed.

Lemma updateTestStatus_counters_recomputed_witness :
  countersAgree
    (runCalls
       (take 2 [mkStatusCall "a" passed None 5; mkStatusCall "b" failed (Some "x") 6])
       {| QAState.isOpen := true;
          QAState.currentSession :=
            Some (TestSession.mk "session_1" "run" 1 None 7 7 7 7 [] None "me");
          QAState.testSessions := [];
          QAState.checklists :=
            [TestChecklist.mk "A"
               [TestItem.mk "a" "A" UI "loads" not_started None None;
                TestItem.mk "b" "A" UI "saves" not_started None None]];
          QAState.bugs := [] |}).
Proof.
  apply updateTestStatus_counters_recomputed.
  - simpl. by eexists.
  - simpl. lia.
Defined.

(** ** startTestSession *)

Lemma allItems_reset_length cls :
  length (allItems (mapItems resetItem cls)) = length (allItems cls).
Proof. rewrite allItems_mapItems. apply length_map. Qed.

(** C3: after [startTestSession name tester] every item of every checklist
    has status [not_started] and neither notes nor a [testedAt] stamp; the
    new current session has [passedTests], [failedTests] and [skippedTests]
    equal to 0, [totalTests] equal to the number of items across all
    checklists (the same number before and after the reset), an empty
    [bugsFound] list, and the given name and tester. *)
Theorem startTestSession_resets_and_installs :
  forall (s : QAState.t) (name tester : string) (nowId nowStarted : Z),
    let s' := startTestSession name tester nowId nowStarted s in
    Forall (fun item =>
              TestItem.status item = not_started /\
              TestItem.notes item = None /\
              TestItem.testedAt item = None)
           (allItems (QAState.checklists s')) /\
    map TestItem.id (allItems (QAState.checklists s'))
      = map TestItem.id (allItems (QAState.checklists s)) /\
    exists session,
      QAState.currentSession s' = Some session /\
      TestSession.passedTests session = 0%nat /\
      TestSession.failedTests session = 0%nat /\
      TestSession.skippedTests session = 0%nat /\
      TestSession.totalTests session = length (allItems (QAState.checklists s')) /\
      TestSession.totalTests session = length (allItems (QAState.checklists s)) /\
      TestSession.bugsFound session = [] /\
      TestSession.name session = name /\
      TestSession.tester session = tester.
Proof.
  intros s name tester nowId nowStarted s'. subst s'.
  unfold startTestSession. simpl. split; [|split].
  - rewrite allItems_mapItems. apply Forall_forall.
    intros item Hin. apply list_elem_of_In, in_map_iff in Hin.
    destruct Hin as (x & <- & _). done.
  - rewrite allItems_mapItems, map_map. by apply map_ext.
  - eexists. split; [reflexivity|]. simpl.
    repeat split. apply allItems_reset_length.
Qed.

(** ** updateBugStatus *)

(** A repeated [updateBugStatus(id, 'fixed')] on a bug that is already fixed
    stamps [fixedAt] again: first set to 100, it reads 200 afterwards. *)
Lemma updateBugStatus_restamps_fixed_bug :
  map BugReport.status (QAState.bugs fixedOnce) = [fixed] /\
  map BugReport.fixedAt (QAState.bugs fixedOnce) = [Some 100] /\
  map BugReport.fixedAt
      (QAState.bugs (updateBugStatus "bug_50" fixed 200 fixedOnce))
    = [Some 200].
Proof. repeat split. Qed.

(** C4, amended: for every bug of the state with the given id,
    [updateBugStatus bugId st] sets the status to [st] and stamps [fixedAt]
    with the current time exactly when [st] is [fixed], whatever the status
    was before; for any other [st] the [fixedAt] field is left as it was.
    Bugs with another id are untouched. *)
Theorem updateBugStatus_stamps_whenever_fixed :
  forall (s : QAState.t) (bugId : string) (st : BugStatus) (now : Z)
         (i : nat) (b : BugReport.t),
    QAState.bugs s !! i = Some b ->
    exists b',
      QAState.bugs (updateBugStatus bugId st now s) !! i = Some b' /\
      BugReport.id b' = BugReport.id b /\
      if decide (BugReport.id b = bugId)
      then BugReport.status b' = st /\
           BugReport.fixedAt b' =
             (if decide (st = fixed) then Some now else BugReport.fixedAt b)
      else b' = b.
Proof.
  intros s bugId st now i b Hb. unfold updateBugStatus. simpl.
  rewrite list_lookup_fmap, Hb. simpl.
  eexists. split; [reflexivity|].
  destruct (decide (BugReport.id b = bugId)); simpl; done.
Qed.

Lemma updateBugStatus_stamps_whenever_fixed_witness :
  exists b',
    QAState.bugs (updateBugStatus "bug_50" fixed 200 fixedOnce) !! 0%nat = Some b' /\
    BugReport.id b' = "bug_50" /\
    BugReport.status b' = fixed /\
    BugReport.fixedAt b' = Some 200.
Proof.
  destruct (updateBugStatus_stamps_whenever_fixed
              fixedOnce "bug_50" fixed 200 0 (restatusBug fixed 100 (newBug sampleDraft 50 50)) eq_refl)
    as (b' & H1 & H2 & H3).
  exists b'. simpl in H3. destruct H3 as [H3 H4]. done.
Defined.

(** ** Operations keyed by an id *)

Lemma filter_Forall_id {A} (P : A -> Prop) `{forall x, Decision (P x)} (l : list A) :
  Forall P l -> filter P l = l.
Proof.
  induction 1 as [|x l Hx _ IH]; [done|].
  by rewrite filter_cons_True, IH.
Qed.

Lemma filter_twice {A} (P : A -> Prop) `{forall x, Decision (P x)} (l : list A) :
  filter P (filter P l) = filter P l.
Proof.
  apply filter_Forall_id, Forall_forall.
  intros x Hx. by apply list_elem_of_filter in Hx as [? _].
Qed.

Lemma map_Forall_id {A} (f : A -> A) (l : list A) :
  Forall (fun x => f x = x) l -> map f l = l.
Proof. induction 1 as [|x l Hx _ IH]; simpl; congruence. Qed.

Lemma QAState_eta s :
  {| QAState.isOpen := QAState.isOpen s;
     QAState.currentSession := QAState.currentSession s;
     QAState.testSessions := QAState.testSessions s;
     QAState.checklists := QAState.checklists s;
     QAState.bugs := QAState.bugs s |} = s.
Proof. by destruct s. Qed.

Lemma TestChecklist_eta c :
  {| TestChecklist.screen := TestChecklist.screen c;
     TestChecklist.items := TestChecklist.items c |} = c.
Proof. by destruct c. Qed.

Lemma withBugsFound_id f session :
  f (TestSession.bugsFound session) = TestSession.bugsFound session ->
  withBugsFound f session = session.
Proof. destruct session. unfold withBugsFound. simpl. by intros ->. Qed.

Lemma removeTestItem_absent testId s :
  testIdAbsent testId s -> removeTestItem testId s = s.
Proof.
  destruct s as [o cs ts cls bs].
  unfold testIdAbsent, removeTestItem, allItems. simpl. intros H. f_equal.
  induction cls as [|c cls IH]; simpl in *; [done|].
  apply Forall_app in H as [Hc Hcls].
  rewrite (filter_Forall_id _ _ Hc), TestChecklist_eta. f_equal. by apply IH.
Qed.

Lemma updateTestStatus_absent testId st nt now s :
  testIdAbsent testId s ->
  updateTestStatus testId st nt now s
    = withCurrentSession
        (recount (allItems (QAState.checklists s)) <$> QAState.currentSession s) s.
Proof.
  unfold testIdAbsent, updateTestStatus, withCurrentSession. intros H.
  rewrite mapItems_id_ext.
  - by destruct (QAState.currentSession s).
  - intros item Hin. rewrite Forall_forall in H.
    apply list_elem_of_In, H in Hin. by rewrite decide_False.
Qed.

Lemma recount_agreeing s session :
  QAState.currentSession s = Some session ->
  countersAgree s ->
  recount (allItems (QAState.checklists s)) session = session.
Proof.
  intros Hs (session' & Hs' & Ht & Hp & Hf & Hk).
  assert (session' = session) as -> by congruence.
  destruct session. unfold recount. simpl in *. congruence.
Qed.

Lemma updateTestStatus_absent_noop testId st nt now s :
  testIdAbsent testId s ->
  QAState.currentSession s = None \/ countersAgree s ->
  updateTestStatus testId st nt now s = s.
Proof.
  intros Habs Hc. rewrite updateTestStatus_absent by done.
  destruct (QAState.currentSession s) as [session|] eqn:Hs.
  - destruct Hc as [Hc|Hc]; [done|]. simpl.
    rewrite (recount_agreeing s session) by done.
    destruct s. unfold withCurrentSession. simpl in *. by rewrite Hs.
  - destruct s. unfold withCurrentSession. simpl in *. by rewrite Hs.
Qed.

Lemma updateTestStatus_absent_twice testId st nt now1 now2 s :
  testIdAbsent testId s ->
  updateTestStatus testId st nt now2 (updateTestStatus testId st nt now1 s)
    = updateTestStatus testId st nt now1 s.
Proof.
  intros Habs.
  rewrite (updateTestStatus_absent _ _ _ now1) by done.
  rewrite updateTestStatus_absent by done.
  unfold withCurrentSession. simpl.
  by destruct (QAState.currentSession s).
Qed.

Lemma updateBugStatus_absent bugId st now s :
  Forall (fun bug => BugReport.id bug <> bugId) (QAState.bugs s) ->
  updateBugStatus bugId st now s = s.
Proof.
  destruct s as [o cs ts cls bs]. unfold updateBugStatus. simpl.
  intros H. f_equal.
  apply map_Forall_id. eapply Forall_impl; [exact H|].
  intros b Hb. simpl. by rewrite decide_False.
Qed.

Lemma deleteBug_absent bugId s :
  bugIdAbsent bugId s -> deleteBug bugId s = s.
Proof.
  destruct s as [o cs ts cls bs]. unfold bugIdAbsent, deleteBug. simpl.
  intros [Hb Hs]. f_equal.
  - destruct cs as [session|]; [|done].
    simpl in Hs. f_equal. apply withBugsFound_id.
    by apply filter_Forall_id.
  - by apply filter_Forall_id.
Qed.

Lemma deleteSession_absent sessionId s :
  sessionIdAbsent sessionId s -> deleteSession sessionId s = s.
Proof.
  destruct s as [o cs ts cls bs]. unfold sessionIdAbsent, deleteSession.
  simpl. intros H. f_equal.
  by apply filter_Forall_id.
Qed.

(** The three removals are idempotent at every id, known or not. *)
Lemma removeTestItem_idempotent testId s :
  removeTestItem testId (removeTestItem testId s) = removeTestItem testId s.
Proof.
  unfold removeTestItem. simpl. f_equal.
  rewrite map_map. apply map_ext. intros c. simpl.
  by rewrite filter_twice.
Qed.

Lemma deleteBug_idempotent bugId s :
  deleteBug bugId (deleteBug bugId s) = deleteBug bugId s.
Proof.
  unfold deleteBug. simpl. f_equal.
  - destruct (QAState.currentSession s) as [session|]; [|done].
    f_equal. unfold withBugsFound. simpl. by rewrite filter_twice.
  - by rewrite filter_twice.
Qed.

Lemma deleteSession_idempotent sessionId s :
  deleteSession sessionId (deleteSession sessionId s) = deleteSession sessionId s.
Proof. unfold deleteSession. simpl. f_equal. by rewrite filter_twice. Qed.

(** With a stale counter, [updateTestStatus] on an id no item carries does
    change the state: the session's [totalTests] goes from 0 to 1. *)
Lemma updateTestStatus_unknown_id_recounts :
  testIdAbsent "missing" staleCounters /\
  TestSession.totalTests <$> QAState.currentSession staleCounters = Some 0%nat /\
  TestSession.totalTests <$>
    QAState.currentSession (updateTestStatus "missing" passed None 9 staleCounters)
    = Some 1%nat.
Proof.
  split; [|split]; [|reflexivity..].
  repeat constructor. discriminate.
Qed.

(** C6, amended: at an id that occurs nowhere in the state,
    [removeTestItem], [updateBugStatus], [deleteBug] and [deleteSession]
    return the state unchanged; [updateTestStatus] changes nothing but the
    four counters of an active session, which it recomputes from the items,
    so it too returns the state unchanged when no session is active or the
    counters already agree with the items; and each of the five operations
    yields the same state applied twice as applied once, whatever the clock
    reads at either call.  All five are total functions: nothing throws. *)
Theorem unknown_id_operations :
  forall (s : QAState.t) (testId bugId sessionId : string),
    testIdAbsent testId s ->
    bugIdAbsent bugId s ->
    sessionIdAbsent sessionId s ->
    removeTestItem testId s = s /\
    (forall st now, updateBugStatus bugId st now s = s) /\
    deleteBug bugId s = s /\
    deleteSession sessionId s = s /\
    (forall st nt now,
        updateTestStatus testId st nt now s
          = withCurrentSession
              (recount (allItems (QAState.checklists s))
                 <$> QAState.currentSession s) s) /\
    (forall st nt now,
        QAState.currentSession s = None \/ countersAgree s ->
        updateTestStatus testId st nt now s = s) /\
    (forall st nt now1 now2,
        updateTestStatus testId st nt now2 (updateTestStatus testId st nt now1 s)
          = updateTestStatus testId st nt now1 s) /\
    removeTestItem testId (removeTestItem testId s) = removeTestItem testId s /\
    (forall st now1 now2,
        updateBugStatus bugId st now2 (updateBugStatus bugId st now1 s)
          = updateBugStatus bugId st now1 s) /\
    deleteBug bugId (deleteBug bugId s) = deleteBug bugId s /\
    deleteSession sessionId (deleteSession sessionId s) = deleteSession sessionId s.
Proof.
  intros s testId bugId sessionId Ht Hb Hs.
  repeat split.
  - by apply removeTestItem_absent.
  - intros. apply updateBugStatus_absent, Hb.
  - by apply deleteBug_absent.
  - by apply deleteSession_absent.
  - intros. by apply updateTestStatus_absent.
  - intros. by apply updateTestStatus_absent_noop.
  - intros. by apply updateTestStatus_absent_twice.
  - apply removeTestItem_idempotent.
  - intros st now1 now2.
    rewrite (updateBugStatus_absent bugId st now1 s) by apply Hb.
    apply updateBugStatus_absent, Hb.
  - apply deleteBug_idempotent.
  - apply deleteSession_idempotent.
Qed.

Lemma unknown_id_operations_witness :
  removeTestItem "missing" staleCounters = staleCounters /\
  deleteBug "bug_0" staleCounters = staleCounters /\
  deleteSession "session_0" staleCounters = staleCounters /\
  updateTestStatus "missing" passed None 9 staleCounters
    = withCurrentSession
        (recount (allItems (QAState.checklists staleCounters))
           <$> QAState.currentSession staleCounters) staleCounters.
Proof.
  assert (Ht : testIdAbsent "missing" staleCounters)
    by (repeat constructor; discriminate).
  assert (Hb : bugIdAbsent "bug_0" staleCounters) by (split; constructor).
  assert (Hs : sessionIdAbsent "session_0" staleCounters) by constructor.
  destruct (unknown_id_operations staleCounters "missing" "bug_0" "session_0"
              Ht Hb Hs) as (H1 & _ & H3 & H4 & H5 & _).
  exact (conj H1 (conj H3 (conj H4 (H5 passed None 9)))).
Defined.

(** ** reportBug then deleteBug *)

(** Two bugs filed at the same clock reading share the id [bug_50];
    deleting the second by its id deletes the first as well. *)
Lemma reportBug_deleteBug_same_clock_reading :
  QAState.currentSession oneBug = None /\
  map BugReport.id (QAState.bugs oneBug) = ["bug_50"] /\
  BugReport.id (newBug sampleDraft 50 51) = "bug_50" /\
  QAState.bugs (deleteBug "bug_50" (reportBug sampleDraft 50 51 oneBug)) = [].
Proof. repeat split. Qed.

(** C7, amended: in a state with no active session where no bug carries
    the id that [reportBug] is about to assign, [reportBug] followed by
    [deleteBug] on that id leaves the [bugs] collection, and with it the
    whole state, as it was before the two calls. *)
Theorem reportBug_deleteBug_roundtrip :
  forall (s : QAState.t) (bug : BugDraft.t) (nowId nowReported : Z),
    QAState.currentSession s = None ->
    Forall (fun b => BugReport.id b <> BugReport.id (newBug bug nowId nowReported))
           (QAState.bugs s) ->
    let s' := deleteBug (BugReport.id (newBug bug nowId nowReported))
                        (reportBug bug nowId nowReported s) in
    QAState.bugs s' = QAState.bugs s /\ s' = s.
Proof.
  intros s bug nowId nowReported Hnone Hfresh s'.
  assert (Hbugs : QAState.bugs s' = QAState.bugs s).
  { subst s'. unfold deleteBug, reportBug. simpl.
    rewrite filter_app, filter_cons_False, filter_nil, app_nil_r by (simpl; tauto).
    by apply filter_Forall_id. }
  split; [done|].
  rewrite <- (QAState_eta s'), Hbugs.
  subst s'. unfold deleteBug, reportBug. simpl. rewrite Hnone.
  rewrite <- Hnone. apply QAState_eta.
Qed.

Lemma reportBug_deleteBug_roundtrip_witness :
  QAState.bugs (deleteBug "bug_51" (reportBug sampleDraft 51 51 oneBug))
    = QAState.bugs oneBug /\
  deleteBug "bug_51" (reportBug sampleDraft 51 51 oneBug) = oneBug.
Proof.
  apply (reportBug_deleteBug_roundtrip oneBug sampleDraft 51 51).
  - reflexivity.
  - repeat constructor. discriminate.
Defined.

(** ** mergeChecklists *)

Lemma truthy_string_spec o :
  truthy_string o = true <-> o <> None /\ o <> Some "".
Proof.
  destruct o as [s|]; simpl.
  - rewrite negb_true_iff, String.eqb_neq. split.
    + intros H. split; congruence.
    + intros [_ H] ->. done.
  - split; [done|]. by intros [? _].
Qed.

Lemma truthy_number_spec o :
  truthy_number o = true <-> o <> None /\ o <> Some 0%Z.
Proof.
  destruct o as [n|]; simpl.
  - rewrite negb_true_iff, Z.eqb_neq. split.
    + intros H. split; congruence.
    + intros [_ H] ->. done.
  - split; [done|]. by intros [? _].
Qed.

Lemma hasResult_spec item : hasResult item = true <-> carriesHistory item.
Proof.
  unfold hasResult, carriesHistory.
  rewrite !orb_true_iff, negb_true_iff, bool_decide_eq_false.
  rewrite truthy_string_spec, truthy_number_spec. tauto.
Qed.

(** The nested loops visit the saved items in checklist order. *)
Lemma savedResults_flat saved :
  savedResults saved = fold_left recordResult (allItems saved) ∅.
Proof.
  unfold savedResults, allItems. generalize (∅ : gmap string SavedResult).
  induction saved as [|c saved IH]; intros m; simpl; [done|].
  by rewrite fold_left_app, IH.
Qed.

Lemma lastSaved_snoc testId l x :
  lastSaved testId (l ++ [x])
    = if decide (TestItem.id x = testId /\ carriesHistory x)
      then Some x else lastSaved testId l.
Proof.
  unfold lastSaved. rewrite filter_app.
  destruct (decide (TestItem.id x = testId /\ carriesHistory x)) as [H|H].
  - rewrite filter_cons_True, filter_nil by done. apply last_snoc.
  - rewrite filter_cons_False, filter_nil, app_nil_r by done. done.
Qed.

(** What the map holds for an id is the result of the last saved item of
    that id that carries history. *)
Lemma savedResults_lookup saved testId :
  savedResults saved !! testId = resultOf <$> lastSaved testId (allItems saved).
Proof.
  rewrite savedResults_flat.
  induction (allItems saved) as [|x l IH] using rev_ind; [done|].
  rewrite fold_left_app, lastSaved_snoc. simpl. unfold recordResult at 1.
  destruct (hasResult x) eqn:Hx.
  - apply hasResult_spec in Hx.
    destruct (decide (TestItem.id x = testId)) as [->|Hne].
    + rewrite lookup_insert_eq, decide_True by done. done.
    + rewrite lookup_insert_ne, decide_False by tauto. done.
  - rewrite decide_False; [done|].
    intros [_ Hc]. apply hasResult_spec in Hc. congruence.
Qed.

Lemma mergeItem_mergedFrom saved d :
  mergedFrom (allItems saved) d (mergeItem (savedResults saved) d).
Proof.
  unfold mergedFrom, mergeItem. rewrite savedResults_lookup.
  by destruct (lastSaved (TestItem.id d) (allItems saved)).
Qed.

(** A saved [testedAt] of 0 is not carried forward, and of two saved items
    that share an id the later one decides. *)
Lemma mergeChecklists_zero_stamp_and_shared_id :
  allItems
    (mergeChecklists
       [checklistOf "HOME" [itemWith "home_001" not_started None (Some 0)]]
       [checklistOf "HOME" [itemWith "home_001" not_started None None]])
    = [itemWith "home_001" not_started None None] /\
  allItems
    (mergeChecklists
       [checklistOf "HOME" [itemWith "home_001" passed None (Some 7);
                            itemWith "home_001" failed (Some "broken") (Some 9)]]
       [checklistOf "HOME" [itemWith "home_001" not_started None None]])
    = [itemWith "home_001" failed (Some "broken") (Some 9)].
Proof. split; vm_compute; reflexivity. Qed.

(** C1, amended: [mergeChecklists saved supplied] returns the supplied
    collection, checklist by checklist and item by item (same screens, same
    items in the same order, so an id that is not supplied does not appear):
    an item whose id occurs among the saved items with a status other than
    [not_started], non-empty notes or a non-zero [testedAt] gets the status,
    notes and [testedAt] of the last such saved item and keeps its other
    fields; every other item is returned exactly as supplied. *)
Theorem mergeChecklists_carries_results_forward :
  forall saved supplied : list TestChecklist.t,
    Forall2
      (fun c c' =>
         TestChecklist.screen c' = TestChecklist.screen c /\
         Forall2 (mergedFrom (allItems saved))
                 (TestChecklist.items c) (TestChecklist.items c'))
      supplied (mergeChecklists saved supplied).
Proof.
  intros saved supplied. unfold mergeChecklists, mapItems.
  induction supplied as [|c supplied IH]; simpl; constructor; [|exact IH].
  split; [done|]. simpl.
  induction (TestChecklist.items c) as [|d ds IHd]; simpl; constructor.
  - apply mergeItem_mergedFrom.
  - exact IHd.
Qed.

(** The scenario of the specification: one saved item marked [passed], the
    same id supplied again together with a new id. *)
Example mergeChecklists_on_reload :
  mergeChecklists
    [checklistOf "HOME" [itemWith "home_001" passed None (Some 1700000000000)]]
    [checklistOf "HOME" [itemWith "home_001" not_started None None;
                         itemWith "home_002" not_started None None]]
  = [checklistOf "HOME" [itemWith "home_001" passed None (Some 1700000000000);
                         itemWith "home_002" not_started None None]].
Proof. vm_compute. reflexivity. Qed.

(** An id with no saved history keeps exactly its supplied fields. *)
Lemma mergedFrom_no_history saved d r :
  Forall (fun s => ~ (TestItem.id s = TestItem.id d /\ carriesHistory s)) saved ->
  mergedFrom saved d r -> r = d.
Proof.
  intros H. unfold mergedFrom, lastSaved.
  replace (filter _ saved) with (@nil TestItem.t); [done|].
  symmetry. induction H as [|x l Hx _ IH]; [done|].
  by rewrite filter_cons_False.
Qed.

(** ** routePathToScreenName *)

Ltac each_ascii c :=
  destruct c as [[] [] [] [] [] [] [] []]; vm_compute; try reflexivity;
  try discriminate; auto.

Lemma settled_after_replacements c :
  settledChar
    (upperChar
       ((fun c => if Ascii.eqb c "-" then "_"%char else c)
          ((fun c => if Ascii.eqb c "/" then "_"%char else c) c))) = true.
Proof. each_ascii c. Qed.

Lemma colon_after_replacements c :
  Ascii.eqb
    (upperChar
       ((fun c => if Ascii.eqb c "-" then "_"%char else c)
          ((fun c => if Ascii.eqb c "/" then "_"%char else c) c))) ":"
  = Ascii.eqb c ":".
Proof. each_ascii c. Qed.

Lemma settledChar_fixed c :
  settledChar c = true ->
  Ascii.eqb c "/" = false /\
  (if Ascii.eqb c "/" then "_"%char else c) = c /\
  (if Ascii.eqb c "-" then "_"%char else c) = c /\
  upperChar c = c.
Proof. each_ascii c. Qed.

Lemma mapString_compose f g s :
  mapString f (mapString g s) = mapString (fun c => f (g c)) s.
Proof. induction s as [|c r IH]; simpl; congruence. Qed.

Lemma mapString_fixed f s :
  allChars (fun c => Ascii.eqb (f c) c) s = true -> mapString f s = s.
Proof.
  induction s as [|c r IH]; simpl; [done|].
  rewrite andb_true_iff, Ascii.eqb_eq. intros [-> Hr]. by rewrite IH.
Qed.

Lemma allChars_impl (p q : ascii -> bool) s :
  (forall c, p c = true -> q c = true) ->
  allChars p s = true -> allChars q s = true.
Proof.
  intros Hpq. induction s as [|c r IH]; simpl; [done|].
  rewrite !andb_true_iff. intros [Hc Hr]. auto.
Qed.

Lemma allChars_append p s t :
  allChars p (s +:+ t) = allChars p s && allChars p t.
Proof.
  induction s as [|c r IH]; simpl; [done|].
  by rewrite IH, andb_assoc.
Qed.

Lemma includesColon_append s t :
  includesColon (s +:+ t) = includesColon s || includesColon t.
Proof.
  induction s as [|c r IH]; simpl; [done|].
  by rewrite IH, orb_assoc.
Qed.

(** The name computed before the [HOME] and [_DETAIL] cases. *)
Lemma name_settled s :
  allChars settledChar (toUpperCase (replaceChar "-" (replaceChar "/" s))) = true.
Proof.
  unfold toUpperCase, replaceChar. rewrite !mapString_compose.
  induction s as [|c r IH]; simpl; [done|].
  by rewrite settled_after_replacements, IH.
Qed.

Lemma name_colon s :
  includesColon (toUpperCase (replaceChar "-" (replaceChar "/" s)))
    = includesColon s.
Proof.
  unfold toUpperCase, replaceChar. rewrite !mapString_compose.
  induction s as [|c r IH]; simpl; [done|].
  by rewrite colon_after_replacements, IH.
Qed.

(** Without a slash no match of [/\/:[\w]+/] starts. *)
Lemma removeDynamic_no_slash s :
  allChars (fun c => negb (Ascii.eqb c "/")) s = true ->
  removeDynamic false s = s.
Proof.
  induction s as [|c r IH]; simpl; [done|].
  rewrite andb_true_iff, negb_true_iff. intros [Hc Hr].
  rewrite Hc. simpl. rewrite (IH Hr). by destruct r as [|c1 [|c2 r2]].
Qed.

(** Nor does one start without a colon. *)
Lemma removeDynamic_no_colon s :
  includesColon s = false -> removeDynamic false s = s.
Proof.
  induction s as [|c r IH]; simpl; [done|].
  rewrite orb_false_iff. intros [Hc Hr]. rewrite (IH Hr).
  destruct r as [|c1 [|c2 r2]]; [done..|].
  simpl in Hr. apply orb_false_iff in Hr as [-> _].
  by rewrite andb_false_r.
Qed.

Lemma routePathToScreenName_settled x :
  allChars settledChar (routePathToScreenName x) = true /\
  routePathToScreenName x <> "".
Proof.
  unfold routePathToScreenName.
  set (name := toUpperCase _).
  assert (Hname : allChars settledChar name = true) by apply name_settled.
  destruct (String.eqb name "") eqn:He; [done|].
  apply String.eqb_neq in He.
  destruct (includesColon x).
  - split.
    + by rewrite allChars_append, Hname.
    + by destruct name.
  - done.
Qed.

(** On a settled, non-empty name the deriver only decides whether to append
    [_DETAIL]. *)
Lemma routePathToScreenName_on_settled y :
  allChars settledChar y = true -> y <> "" ->
  routePathToScreenName y
    = if includesColon y then y +:+ "_DETAIL" else y.
Proof.
  intros Hy Hne. unfold routePathToScreenName.
  assert (Hstrip : stripLeadingSlash y = y).
  { destruct y as [|c r]; [done|]. simpl in *.
    apply andb_true_iff in Hy as [Hc _].
    apply settledChar_fixed in Hc as (-> & _). done. }
  rewrite Hstrip. unfold removeDynamicSegments.
  rewrite removeDynamic_no_slash.
  2:{ eapply allChars_impl; [|exact Hy]. intros c Hc.
      apply settledChar_fixed in Hc as (-> & _). done. }
  unfold toUpperCase, replaceChar.
  rewrite (mapString_fixed (fun c => if Ascii.eqb c "/" then _ else _)).
  2:{ eapply allChars_impl; [|exact Hy]. intros c Hc.
      apply settledChar_fixed in Hc as (_ & -> & _). apply Ascii.eqb_refl. }
  rewrite (mapString_fixed (fun c => if Ascii.eqb c "-" then _ else _)).
  2:{ eapply allChars_impl; [|exact Hy]. intros c Hc.
      apply settledChar_fixed in Hc as (_ & _ & -> & _). apply Ascii.eqb_refl. }
  rewrite (mapString_fixed upperChar).
  2:{ eapply allChars_impl; [|exact Hy]. intros c Hc.
      apply settledChar_fixed in Hc as (_ & _ & _ & ->). apply Ascii.eqb_refl. }
  apply String.eqb_neq in Hne. by rewrite Hne.
Qed.

(** A dynamic segment that does not follow a slash stays in the name, and
    the second derivation appends [_DETAIL] once more. *)
Lemma routePathToScreenName_not_idempotent :
  routePathToScreenName "/flights/:from-:to" = "FLIGHTS_:TO_DETAIL" /\
  routePathToScreenName (routePathToScreenName "/flights/:from-:to")
    = "FLIGHTS_:TO_DETAIL_DETAIL" /\
  routePathToScreenName "/:id" = ":ID_DETAIL" /\
  routePathToScreenName (routePathToScreenName "/:id") = ":ID_DETAIL_DETAIL".
Proof. repeat split; vm_compute; reflexivity. Qed.

(** C5, amended: deriving from an already derived name returns the same
    name whenever the derived name holds no colon. *)
Theorem routePathToScreenName_idempotent :
  forall x : string,
    includesColon (routePathToScreenName x) = false ->
    routePathToScreenName (routePathToScreenName x) = routePathToScreenName x.
Proof.
  intros x Hx.
  destruct (routePathToScreenName_settled x) as [Hs Hne].
  rewrite routePathToScreenName_on_settled by done.
  by rewrite Hx.
Qed.

Lemma routePathToScreenName_idempotent_witness :
  routePathToScreenName (routePathToScreenName "/users/:id/posts")
    = routePathToScreenName "/users/:id/posts".
Proof.
  apply (routePathToScreenName_idempotent "/users/:id/posts").
  vm_compute. reflexivity.
Defined.

(** Every input without a colon is covered: its derived name has none. *)
Lemma routePathToScreenName_colon_free x :
  includesColon x = false ->
  includesColon (routePathToScreenName x) = false.
Proof.
  intros Hx. unfold routePathToScreenName. rewrite Hx.
  destruct (String.eqb _ "") eqn:He; [done|].
  rewrite name_colon. unfold removeDynamicSegments.
  assert (Hstrip : includesColon (stripLeadingSlash x) = false).
  { destruct x as [|c r]; [done|]. simpl in *.
    apply orb_false_iff in Hx as [Hc Hr].
    destruct (Ascii.eqb c "/"); simpl; [exact Hr|by rewrite Hc, Hr]. }
  by rewrite removeDynamic_no_colon.
Qed.

(** Conversely, a colon in the derived name always breaks idempotence. *)
Lemma routePathToScreenName_colon_grows x :
  includesColon (routePathToScreenName x) = true ->
  routePathToScreenName (routePathToScreenName x)
    = routePathToScreenName x +:+ "_DETAIL".
Proof.
  intros Hx.
  destruct (routePathToScreenName_settled x) as [Hs Hne].
  rewrite routePathToScreenName_on_settled by done.
  by rewrite Hx.
Qed.

(** ** loadQAState *)

Lemma typeof_boolean v : typeof v = ty_boolean <-> exists b, v = Some (JBool b).
Proof.
  split.
  - destruct v as [[]|]; try discriminate. by eexists.
  - by intros [b ->].
Qed.

Lemma isArray_spec v : isArray v = true <-> exists l, v = Some (JArray l).
Proof.
  split.
  - destruct v as [[]|]; try discriminate. by eexists.
  - by intros [l ->].
Qed.

(** The check throws on [null] only, and says yes exactly on well-shaped
    values. *)
Lemma validStructure_spec parsed :
  (validStructure parsed = Normal true <-> wellShaped parsed) /\
  (validStructure parsed = Throw TypeError \/
   exists ok, validStructure parsed = Normal ok).
Proof.
  destruct parsed as [ | b | n | s | l | props];
    try (split; [split; [discriminate|by intros (? & ? & ? & ? & ? & ? & _)]
                |right; by eexists]).
  - split; [split; [discriminate|by intros (? & ? & ? & ? & ? & ? & _)]|by left].
  - unfold validStructure, wellShaped. simpl.
    unfold mbind, Completion_bind, mret, Completion_ret. simpl.
    split; [|right].
    + split.
      * destruct (decide (typeof (lookupProperty "isOpen" props) = ty_boolean))
          as [Hb|]; [|discriminate].
        apply typeof_boolean in Hb as [b Hb].
        destruct (isArray (lookupProperty "testSessions" props)) eqn:H1;
          [|discriminate].
        destruct (isArray (lookupProperty "checklists" props)) eqn:H2;
          [|discriminate].
        intros [= H3].
        apply isArray_spec in H1 as [l1 H1].
        apply isArray_spec in H2 as [l2 H2].
        apply isArray_spec in H3 as [l3 H3].
        by exists props, b, l1, l2, l3.
      * intros (props' & b & l1 & l2 & l3 & [= <-] & -> & -> & -> & ->).
        done.
    + repeat case_match; by eexists.
Qed.

(** The body of the [try] block returns a value only for a stored,
    non-empty text that parses to a well-shaped value. *)
Lemma loadQAState_try_Some JSON_parse getItem v :
  loadQAState_try JSON_parse getItem = Normal (Some v) <->
  exists text,
    getItem = Normal (Some text) /\ text <> "" /\
    JSON_parse text = Normal v /\ wellShaped v.
Proof.
  unfold loadQAState_try.
  unfold mbind, Completion_bind, mret, Completion_ret.
  split.
  - destruct getItem as [[text|]|e]; [|discriminate..].
    destruct (String.eqb text "") eqn:He; [discriminate|].
    apply String.eqb_neq in He.
    destruct (JSON_parse text) as [parsed|e] eqn:Hp; [|discriminate].
    destruct (validStructure parsed) as [[]|e] eqn:Hv; [|discriminate..].
    intros [= <-]. exists text. repeat split; [done..|].
    by apply validStructure_spec.
  - intros (text & -> & Hne & Hp & Hw).
    apply String.eqb_neq in Hne. rewrite Hne, Hp.
    apply validStructure_spec in Hw. by rewrite Hw.
Qed.

Lemma loadQAState_general JSON_parse getItem :
  exists r,
    loadQAState JSON_parse getItem = Normal r /\
    forall v, r = Some v <->
      exists text,
        getItem = Normal (Some text) /\ text <> "" /\
        JSON_parse text = Normal v /\ wellShaped v.
Proof.
  unfold loadQAState.
  destruct (loadQAState_try JSON_parse getItem) as [r|e] eqn:Ht.
  - exists r. split; [done|]. intros v.
    rewrite <- loadQAState_try_Some, Ht. split; congruence.
  - exists None. split; [done|]. intros v.
    rewrite <- loadQAState_try_Some, Ht. split; discriminate.
Qed.

(** C8: whatever the storage holds under the key and however reading or
    parsing it ends, [loadQAState] completes normally (it never throws); it
    returns the parsed value exactly when the stored text parses to an
    object with a boolean [isOpen] and arrays under [testSessions],
    [checklists] and [bugs], and [null] in every other case.  The one fact
    used about [JSON.parse] is that the empty text is not a JSON document. *)
Theorem loadQAState_never_throws :
  forall (JSON_parse : string -> Completion JSON)
         (getItem : Completion (option string)),
    JSON_parse "" = Throw SyntaxError ->
    exists r,
      loadQAState JSON_parse getItem = Normal r /\
      forall v, r = Some v <->
        exists text,
          getItem = Normal (Some text) /\
          JSON_parse text = Normal v /\ wellShaped v.
Proof.
  intros JSON_parse getItem Hempty.
  destruct (loadQAState_general JSON_parse getItem) as (r & Hr & Hiff).
  exists r. split; [done|]. intros v. rewrite Hiff. split.
  - intros (text & ? & ? & ? & ?). by exists text.
  - intros (text & ? & Hp & ?). exists text. repeat split; try done.
    intros ->. congruence.
Qed.

Lemma loadQAState_never_throws_witness :
  exists r,
    loadQAState sampleParse (Normal (Some sampleBlob)) = Normal r /\
    forall v, r = Some v <->
      exists text,
        Normal (Some sampleBlob) = Normal (Some text) /\
        sampleParse text = Normal v /\ wellShaped v.
Proof.
  apply (loadQAState_never_throws sampleParse (Normal (Some sampleBlob))).
  reflexivity.
Defined.

Example loadQAState_sample :
  loadQAState sampleParse (Normal (Some sampleBlob)) = Normal (Some sampleParsed) /\
  loadQAState sampleParse (Normal None) = Normal None /\
  loadQAState sampleParse (Normal (Some "not json")) = Normal None /\
  loadQAState (fun _ => Normal JNull) (Normal (Some "null")) = Normal None /\
  loadQAState sampleParse (Throw (DOMException "SecurityError")) = Normal None.
Proof. repeat split. Qed.

(** ** saveQAState and clearOldSessions *)

#[local] Instance startsNoEarlier_transitive : Transitive startsNoEarlier.
Proof. unfold startsNoEarlier. intros a b c Hab Hbc. lia. Qed.

Lemma insertSession_perm x l : Permutation (insertSession x l) (x :: l).
Proof.
  induction l as [|y r IH]; simpl; [done|].
  destruct (_ <=? 0)%Z; [done|].
  rewrite IH. apply perm_swap.
Qed.

Lemma sortByStartDesc_perm l : Permutation (sortByStartDesc l) l.
Proof.
  unfold sortByStartDesc. induction l as [|x l IH]; simpl; [done|].
  by rewrite insertSession_perm, IH.
Qed.

Lemma insertSession_HdRel a x l :
  startsNoEarlier a x -> HdRel startsNoEarlier a l ->
  HdRel startsNoEarlier a (insertSession x l).
Proof.
  intros Hax Hl. destruct l as [|y r]; simpl; [by constructor|].
  destruct (_ <=? 0)%Z; constructor; [done|]. by inversion Hl.
Qed.

Lemma insertSession_sorted x l :
  Sorted startsNoEarlier l -> Sorted startsNoEarlier (insertSession x l).
Proof.
  induction 1 as [|y r Hr IH Hy]; simpl.
  - by repeat constructor.
  - destruct (_ <=? 0)%Z eqn:Hc.
    + apply Z.leb_le in Hc. repeat constructor; try done.
      unfold startsNoEarlier. lia.
    + apply Z.leb_gt in Hc. constructor; [done|].
      apply insertSession_HdRel; [|done]. unfold startsNoEarlier. lia.
Qed.

Lemma sortByStartDesc_sorted l :
  StronglySorted startsNoEarlier (sortByStartDesc l).
Proof.
  apply Sorted_StronglySorted; [apply _|].
  unfold sortByStartDesc. induction l as [|x l IH]; simpl; [constructor|].
  by apply insertSession_sorted.
Qed.

(** The sort is stable: sessions that started at the same time keep their
    order. *)
Example sortByStartDesc_stable :
  map TestSession.name
      (sortByStartDesc
         [TestSession.mk "s1" "first" 5 None 0 0 0 0 [] None "t";
          TestSession.mk "s2" "late" 9 None 0 0 0 0 [] None "t";
          TestSession.mk "s3" "second" 5 None 0 0 0 0 [] None "t"])
    = ["late"; "first"; "second"].
Proof. reflexivity. Qed.

(** C9: when the first write of [saveQAState] throws the quota-exceeded
    exception, a second write follows, and the state it writes agrees with
    the original in [isOpen], [currentSession], [checklists] and [bugs];
    its [testSessions] are in descending order of [startedAt], are the
    original's sessions up to the first 10 in that order (so none of the
    sessions left out started later than one that was kept), and with 10
    sessions or fewer all of them are kept. *)
Theorem saveQAState_quota_retry :
  forall state : QAState.t,
    let written := clearOldSessions state in
    let kept := QAState.testSessions written in
    saveQAState state (Throw (DOMException "QuotaExceededError"))
      = [state; written] /\
    QAState.isOpen written = QAState.isOpen state /\
    QAState.currentSession written = QAState.currentSession state /\
    QAState.checklists written = QAState.checklists state /\
    QAState.bugs written = QAState.bugs state /\
    StronglySorted startsNoEarlier kept /\
    length kept = Nat.min 10 (length (QAState.testSessions state)) /\
    (exists dropped,
        Permutation (kept ++ dropped) (QAState.testSessions state) /\
        Forall (fun d => Forall (fun k => startsNoEarlier k d) kept) dropped) /\
    ((length (QAState.testSessions state) <= 10)%nat ->
     Permutation kept (QAState.testSessions state)).
Proof.
  intros state written kept. subst kept written. unfold clearOldSessions.
  simpl.
  pose proof (sortByStartDesc_sorted (QAState.testSessions state)) as Hsorted.
  pose proof (sortByStartDesc_perm (QAState.testSessions state)) as Hperm.
  rewrite <- (take_drop 10 (sortByStartDesc (QAState.testSessions state)))
    in Hsorted.
  apply StronglySorted_app in Hsorted as (Hcross & Hkept & _).
  repeat split; try done.
  - rewrite length_take, (Permutation_length Hperm). done.
  - exists (drop 10 (sortByStartDesc (QAState.testSessions state))). split.
    + by rewrite take_drop.
    + apply Forall_forall. intros d Hd. apply Forall_forall. intros k Hk.
      by apply Hcross.
  - intros Hle. rewrite take_ge; [done|].
    by rewrite (Permutation_length Hperm).
Qed.

(** An exception other than the quota one is logged and nothing more is
    written; a write that succeeds is the only one. *)
Lemma saveQAState_no_retry state :
  saveQAState state (Normal tt) = [state] /\
  saveQAState state (Throw (DOMException "SecurityError")) = [state] /\
  saveQAState state (Throw TypeError) = [state].
Proof. done. Qed.

Example clearOldSessions_keeps_ten_latest :
  map TestSession.startedAt
      (QAState.testSessions
         (clearOldSessions
            {| QAState.isOpen := true;
               QAState.currentSession := None;
               QAState.testSessions :=
                 map sessionAt [3; 11; 1; 7; 12; 5; 9; 2; 10; 4; 8; 6]%Z;
               QAState.checklists := [];
               QAState.bugs := [] |}))
    = [12; 11; 10; 9; 8; 7; 6; 5; 4; 3]%Z.
Proof. reflexivity. Qed.

(** ** The provider's initial state *)

(** C10: the provider adopts a loaded state only when its [checklists] are
    not empty.  An adopted state keeps its [currentSession], [testSessions]
    and [bugs], has [isOpen] forced to [false], and has its checklists
    either kept (fingerprint unchanged) or reconciled by [mergeChecklists];
    in every other case (nothing loaded, or loaded with no checklists) the
    loaded state is dropped whole and the initial state is the default one
    with the supplied checklists. *)
Theorem initialState_adopts_nonempty_only :
  forall (loaded : option QAState.t) (savedFingerprint : option string)
         (defaultChecklists : list TestChecklist.t),
    let init := initialState loaded savedFingerprint defaultChecklists in
    match loaded with
    | Some l =>
        match QAState.checklists l with
        | [] =>
            init = {| QAState.isOpen := false;
                      QAState.currentSession := None;
                      QAState.testSessions := [];
                      QAState.checklists := defaultChecklists;
                      QAState.bugs := [] |}
        | _ :: _ =>
            QAState.isOpen init = false /\
            QAState.currentSession init = QAState.currentSession l /\
            QAState.testSessions init = QAState.testSessions l /\
            QAState.bugs init = QAState.bugs l /\
            QAState.checklists init =
              if decide (savedFingerprint
                         = Some (generateChecklistFingerprint defaultChecklists))
              then QAState.checklists l
              else mergeChecklists (QAState.checklists l) defaultChecklists
        end
    | None =>
        init = {| QAState.isOpen := false;
                  QAState.currentSession := None;
                  QAState.testSessions := [];
                  QAState.checklists := defaultChecklists;
                  QAState.bugs := [] |}
    end.
Proof.
  intros loaded fp defaults init. subst init. unfold initialState.
  destruct loaded as [l|]; [|done].
  destruct (QAState.checklists l) as [|c cls] eqn:Hc; simpl; [done|].
  destruct (decide (fp <> Some (generateChecklistFingerprint defaults)));
    simpl.
  - by rewrite decide_False.
  - rewrite decide_True; [done|].
    by destruct (decide (fp = Some (generateChecklistFingerprint defaults))).
Qed.

(** A persisted state with bugs and sessions but no checklists is dropped
    whole. *)
Example initialState_drops_state_without_checklists :
  initialState
    (Some {| QAState.isOpen := true;
             QAState.currentSession := Some (sessionAt 7);
             QAState.testSessions := [sessionAt 3];
             QAState.checklists := [];
             QAState.bugs := QAState.bugs oneBug |})
    None
    [checklistOf "HOME" [sampleItem]]
  = {| QAState.isOpen := false;
       QAState.currentSession := None;
       QAState.testSessions := [];
       QAState.checklists := [checklistOf "HOME" [sampleItem]];
       QAState.bugs := [] |}.
Proof. reflexivity. Qed.

(** ** Further properties of the store and the deriver *)

(** The three removals are idempotent at every id. *)
Lemma removals_idempotent :
  forall (s : QAState.t) (i : string),
    removeTestItem i (removeTestItem i s) = removeTestItem i s /\
    deleteBug i (deleteBug i s) = deleteBug i s /\
    deleteSession i (deleteSession i s) = deleteSession i s.
Proof.
  intros s i. split; [|split].
  - apply removeTestItem_idempotent.
  - apply deleteBug_idempotent.
  - apply deleteSession_idempotent.
Qed.

Lemma stampItem_twice st nt now item :
  stampItem st nt now (stampItem st nt now item) = stampItem st nt now item.
Proof. done. Qed.

Lemma restatusBug_twice st now bug :
  restatusBug st now (restatusBug st now bug) = restatusBug st now bug.
Proof. unfold restatusBug. simpl. by destruct (decide (st = fixed)). Qed.

(** The two stamping operations are idempotent at every id as long as the
    second call reads the same clock value as the first. *)
Lemma stamping_idempotent_at_one_clock_reading :
  forall (s : QAState.t) (i : string) (ts : TestStatus) (nt : option string)
         (bs : BugStatus) (now : Z),
    updateTestStatus i ts nt now (updateTestStatus i ts nt now s)
      = updateTestStatus i ts nt now s /\
    updateBugStatus i bs now (updateBugStatus i bs now s)
      = updateBugStatus i bs now s.
Proof.
  intros s i ts nt bs now. split.
  - unfold updateTestStatus. simpl.
    set (f := fun item => if decide (TestItem.id item = i)
                          then stampItem ts nt now item else item).
    assert (Hff : mapItems f (mapItems f (QAState.checklists s))
                  = mapItems f (QAState.checklists s)).
    { unfold mapItems. rewrite map_map. apply map_ext. intros c. simpl.
      f_equal. rewrite map_map. apply map_ext. intros item. unfold f.
      destruct (decide (TestItem.id item = i)) as [Hi|Hi]; simpl.
      - by rewrite decide_True.
      - by rewrite decide_False. }
    rewrite Hff. by destruct (QAState.currentSession s).
  - unfold updateBugStatus. simpl. f_equal.
    rewrite map_map. apply map_ext. intros bug.
    destruct (decide (BugReport.id bug = i)) as [Hi|Hi]; simpl.
    + rewrite decide_True by done. apply restatusBug_twice.
    + by rewrite decide_False.
Qed.


(** The derivations listed among the testable properties. *)
Lemma routePathToScreenName_examples :
  routePathToScreenName "/" = "HOME" /\
  routePathToScreenName "" = "HOME" /\
  routePathToScreenName "/users/:id" = "USERS_DETAIL" /\
  routePathToScreenName "user-profile" = "USER_PROFILE" /\
  routePathToScreenName "/dashboard" = "DASHBOARD".
Proof. repeat split; vm_compute; reflexivity. Qed.

(** An input without a colon is derived idempotently. *)
Lemma routePathToScreenName_idempotent_colon_free :
  forall x : string,
    includesColon x = false ->
    routePathToScreenName (routePathToScreenName x) = routePathToScreenName x.
Proof.
  intros x Hx.
  destruct (routePathToScreenName_settled x) as [Hs Hne].
  rewrite routePathToScreenName_on_settled by done.
  by rewrite routePathToScreenName_colon_free.
Qed.

Lemma routePathToScreenName_idempotent_colon_free_witness :
  routePathToScreenName (routePathToScreenName "/user-profile/settings")
    = routePathToScreenName "/user-profile/settings".
Proof.
  apply (routePathToScreenName_idempotent_colon_free "/user-profile/settings").
  reflexivity.
Defined.

Lemma routePathToScreenName_colon_grows_witness :
  routePathToScreenName (routePathToScreenName "/:id")
    = routePathToScreenName "/:id" +:+ "_DETAIL".
Proof.
  apply (routePathToScreenName_colon_grows "/:id"). reflexivity.
Defined.

Lemma last_all_equal {A} (x : A) (l : list A) :
  l <> [] -> Forall (fun y => y = x) l -> last l = Some x.
Proof.
  induction l as [|y l IH] using rev_ind; [done|].
  intros _ H. apply Forall_app in H as [_ H].
  rewrite last_snoc. by inversion H; subst.
Qed.

(** With unique saved ids the reconciliation is the one of the
    specification: a supplied item whose id is carried by a saved item with
    history gets that item's status, notes and [testedAt]. *)
Lemma mergeChecklists_unique_saved_id :
  forall (saved : list TestChecklist.t) (s d : TestItem.t),
    In s (allItems saved) ->
    carriesHistory s ->
    TestItem.id s = TestItem.id d ->
    (forall x, In x (allItems saved) -> TestItem.id x = TestItem.id d -> x = s) ->
    mergeItem (savedResults saved) d = applySaved d (resultOf s).
Proof.
  intros saved s d Hin Hc Hid Huniq.
  unfold mergeItem. rewrite savedResults_lookup.
  unfold lastSaved. erewrite (last_all_equal s); [done| |].
  - intros Hnil.
    assert (Hs : s ∈ filter (fun s0 => TestItem.id s0 = TestItem.id d /\ carriesHistory s0)
                   (allItems saved)).
    { apply list_elem_of_filter. split; [done|]. by apply list_elem_of_In. }
    rewrite Hnil in Hs. by apply not_elem_of_nil in Hs.
  - apply Forall_forall. intros x Hx.
    apply list_elem_of_filter in Hx as [[Hxid _] Hx].
    apply Huniq; [by apply list_elem_of_In|done].
Qed.

Lemma mergeChecklists_unique_saved_id_witness :
  mergeItem
    (savedResults
       [checklistOf "HOME" [itemWith "home_001" passed (Some "ok") (Some 7)]])
    (itemWith "home_001" not_started None None)
  = itemWith "home_001" passed (Some "ok") (Some 7).
Proof.
  apply (mergeChecklists_unique_saved_id
           [checklistOf "HOME" [itemWith "home_001" passed (Some "ok") (Some 7)]]
           (itemWith "home_001" passed (Some "ok") (Some 7))
           (itemWith "home_001" not_started None None)).
  - simpl. by left.
  - left. discriminate.
  - reflexivity.
  - intros x [<-|[]] _. reflexivity.
Defined.

(** ** Invariants of the store *)

Lemma countStatus_partition l :
  (countStatus passed l + countStatus failed l + countStatus skipped l
   + countStatus not_started l = length l)%nat.
Proof.
  unfold countStatus. induction l as [|x l IH]; [done|].
  rewrite !filter_cons. simpl.
  destruct (TestItem.status x) eqn:Hx; repeat case_decide; try congruence;
    simpl; lia.
Qed.

Lemma recount_bounded l session : countersBounded (recount l session).
Proof.
  unfold countersBounded, recount. simpl.
  pose proof (countStatus_partition l). lia.
Qed.

Lemma perform_bugsFoundKnown a s :
  bugsFoundKnown s -> bugsFoundKnown (perform s a).
Proof.
  unfold bugsFoundKnown. intros H.
  destruct a; simpl; try done.
  - (* updateTestStatus *)
    unfold updateTestStatus. simpl.
    by destruct (QAState.currentSession s).
  - (* reportBug *)
    unfold reportBug. simpl. rewrite map_app.
    destruct (QAState.currentSession s) as [session|]; simpl in *; [|done].
    apply Forall_app. split.
    + eapply Forall_impl; [exact H|]. intros i Hi. apply in_or_app. by left.
    + repeat constructor. apply in_or_app. right. by left.
  - (* updateBugStatus *)
    unfold updateBugStatus. simpl. rewrite map_map.
    erewrite map_ext; [exact H|].
    intros b. simpl. by destruct (decide (BugReport.id b = bugId)).
  - (* deleteBug *)
    unfold deleteBug. simpl.
    destruct (QAState.currentSession s) as [session|]; simpl in *; [|done].
    apply Forall_forall. intros i Hi.
    apply list_elem_of_filter in Hi as [Hne Hi].
    rewrite Forall_forall in H. specialize (H i Hi).
    apply in_map_iff in H as (b & Hb & Hin).
    apply in_map_iff. exists b. split; [done|].
    apply list_elem_of_In, list_elem_of_filter. split.
    * congruence.
    * by apply list_elem_of_In.
  - (* completeTestSession *)
    unfold completeTestSession.
    destruct (QAState.currentSession s) as [session|] eqn:Hs; simpl.
    + constructor.
    + by rewrite Hs.
Qed.

Lemma perform_sessionsFiled a s : sessionsFiled s -> sessionsFiled (perform s a).
Proof.
  unfold sessionsFiled. intros [Hc Hh].
  destruct a; simpl; try done.
  - unfold updateTestStatus. simpl.
    by destruct (QAState.currentSession s).
  - unfold reportBug. simpl. by destruct (QAState.currentSession s).
  - unfold deleteBug. simpl. by destruct (QAState.currentSession s).
  - unfold completeTestSession.
    destruct (QAState.currentSession s) as [session|] eqn:Hs; simpl.
    + split; [done|]. apply Forall_app. split; [done|].
      by repeat constructor.
    + by rewrite Hs.
  - split; [done|].
    apply Forall_forall. intros x Hx.
    apply list_elem_of_filter in Hx as [_ Hx].
    rewrite Forall_forall in Hh. by apply Hh.
Qed.

Lemma perform_allCountersBounded a s :
  allCountersBounded s -> allCountersBounded (perform s a).
Proof.
  unfold allCountersBounded. intros [Hc Hh].
  destruct a; simpl; try done.
  - unfold updateTestStatus. simpl.
    destruct (QAState.currentSession s) as [session|]; simpl; [|done].
    split; [apply recount_bounded|done].
  - unfold reportBug. simpl. by destruct (QAState.currentSession s).
  - unfold deleteBug. simpl. by destruct (QAState.currentSession s).
  - split; [|done]. unfold countersBounded. simpl. lia.
  - unfold completeTestSession.
    destruct (QAState.currentSession s) as [session|] eqn:Hs; simpl.
    + split; [done|]. apply Forall_app. split; [done|].
      by repeat constructor.
    + by rewrite Hs.
  - split; [done|].
    apply Forall_forall. intros x Hx.
    apply list_elem_of_filter in Hx as [_ Hx].
    rewrite Forall_forall in Hh. by apply Hh.
Qed.

Lemma performAll_invariant (P : QAState.t -> Prop) :
  (forall a s, P s -> P (perform s a)) ->
  forall actions s, P s -> P (performAll actions s).
Proof.
  intros Hstep actions. unfold performAll.
  induction actions as [|a actions IH]; intros s Hs; [done|].
  simpl. apply IH, Hstep, Hs.
Qed.

(** Whatever the callbacks are called with and in whatever order, the ids
    the current session lists in [bugsFound] stay ids of bugs of the state. *)
Theorem bugsFound_stay_known :
  forall (actions : list Action) (s : QAState.t),
    bugsFoundKnown s -> bugsFoundKnown (performAll actions s).
Proof. apply performAll_invariant. intros a s. apply perform_bugsFoundKnown. Qed.

Lemma bugsFound_stay_known_witness :
  bugsFoundKnown (performAll samplePass (seeded [])).
Proof.
  apply (bugsFound_stay_known samplePass (seeded [])). constructor.
Defined.

(** The current slot never holds a completed session and the history never
    holds an uncompleted one, whatever the callbacks are called with. *)
Theorem sessions_stay_filed :
  forall (actions : list Action) (s : QAState.t),
    sessionsFiled s -> sessionsFiled (performAll actions s).
Proof. apply performAll_invariant. intros a s. apply perform_sessionsFiled. Qed.

Lemma sessions_stay_filed_witness :
  sessionsFiled (performAll samplePass (seeded [])).
Proof.
  apply (sessions_stay_filed samplePass (seeded [])). split; constructor.
Defined.

(** In every session, current or historical, [passedTests + failedTests +
    skippedTests] never exceeds [totalTests], whatever the callbacks are
    called with. *)
Theorem counters_stay_bounded :
  forall (actions : list Action) (s : QAState.t),
    allCountersBounded s -> allCountersBounded (performAll actions s).
Proof.
  apply performAll_invariant. intros a s. apply perform_allCountersBounded.
Qed.

Lemma counters_stay_bounded_witness :
  allCountersBounded (performAll samplePass (seeded [])).
Proof.
  apply (counters_stay_bounded samplePass (seeded [])). split; constructor.
Defined.

(** ** detectScreens *)

Lemma namesTracked_push screens seen name filePath tests :
  namesTracked (screens, seen) -> name ∉ seen ->
  namesTracked
    (screens ++ [ {| DetectedScreen.name := name;
                     DetectedScreen.filePath := filePath;
                     DetectedScreen.suggestedTests := tests |} ],
     {[name]} ∪ seen).
Proof.
  unfold namesTracked. simpl. intros [Hnd Hall] Hnew.
  rewrite map_app. simpl. split.
  - apply NoDup_app. split; [done|]. split; [|apply NoDup_singleton].
    intros x Hx Hx'. apply list_elem_of_singleton in Hx' as ->.
    rewrite Forall_forall in Hall. by apply Hnew, Hall.
  - apply Forall_app. split.
    + eapply Forall_impl; [exact Hall|]. intros x Hx. set_solver.
    + repeat constructor. set_solver.
Qed.

Section DetectScreensFacts.
Variable path_extname : string -> string.
Variable path_basename_ext : string -> string -> string.
Variable path_basename : string -> string.
Variable analyzeComponent : string -> ComponentAnalysis.t.
Variable path_relative : string -> string.
Variable readFileSync : string -> Completion string.
Variable findComponentFile : string -> option string.

Lemma routeStep_tracked st route st' :
  routeStep path_extname path_basename_ext path_basename analyzeComponent
            readFileSync findComponentFile st route = Normal st' ->
  namesTracked st -> namesTracked st'.
Proof.
  destruct st as [screens seen]. unfold routeStep.
  unfold mbind, Completion_bind, mret, Completion_ret.
  destruct (decide (_ ∈ seen)) as [Hin|Hnew]; [by intros [= <-]|].
  destruct (findComponentFile _) as [file|].
  - destruct (String.eqb file "").
    + intros [= <-] H. by apply namesTracked_push.
    + destruct (readFileSync file); [|discriminate].
      intros [= <-] H. by apply namesTracked_push.
  - intros [= <-] H. by apply namesTracked_push.
Qed.

Lemma fileStep_tracked st filePath st' :
  fileStep path_extname path_basename_ext path_basename analyzeComponent
           path_relative readFileSync st filePath = Normal st' ->
  namesTracked st -> namesTracked st'.
Proof.
  destruct st as [screens seen]. unfold fileStep.
  unfold mbind, Completion_bind, mret, Completion_ret.
  destruct (matchesScreenPattern _); [|by intros [= <-]].
  destruct (decide (_ ∈ seen)) as [Hin|Hnew]; [by intros [= <-]|].
  destruct (readFileSync filePath); [|discriminate].
  intros [= <-] H. by apply namesTracked_push.
Qed.
End DetectScreensFacts.

Lemma forEach_invariant {A S} (P : S -> Prop) (body : S -> A -> Completion S) :
  (forall s x s', body s x = Normal s' -> P s -> P s') ->
  forall l s s', forEach body l s = Normal s' -> P s -> P s'.
Proof.
  intros Hbody l. induction l as [|x l IH]; simpl; intros s s'.
  - by intros [= <-].
  - unfold mbind, Completion_bind.
    destruct (body s x) as [s1|] eqn:Hs1; [|discriminate].
    intros Hrest Hs. eapply IH; [exact Hrest|]. by eapply Hbody.
Qed.

(** Whatever is on the disk, a run of [detectScreens] that is not cut short
    by an unreadable file reports every screen name once. *)
Theorem detectScreens_names_unique :
  forall (path_extname : string -> string)
         (path_basename_ext : string -> string -> string)
         (path_basename : string -> string)
         (analyzeComponent : string -> ComponentAnalysis.t)
         (path_relative : string -> string)
         (readFileSync : string -> Completion string)
         (routerResult : RouterParserResult.t)
         (findComponentFile : string -> option string)
         (allFiles : list string)
         (screens : list DetectedScreen.t),
    detectScreens path_extname path_basename_ext path_basename
                  analyzeComponent path_relative readFileSync routerResult
                  findComponentFile allFiles = Normal screens ->
    NoDup (map DetectedScreen.name screens).
Proof.
  intros until screens. unfold detectScreens.
  unfold mbind, Completion_bind, mret, Completion_ret.
  assert (Hstart : namesTracked ([], ∅)) by (split; constructor).
  destruct (detectFromRoutes _ _ _ _ _ _ _) as [st|] eqn:Hroutes;
    [|discriminate].
  assert (Hst : namesTracked st).
  { unfold detectFromRoutes in Hroutes.
    unfold mret, Completion_ret in Hroutes.
    destruct (RouterParserResult.type routerResult);
      destruct (RouterParserResult.routes routerResult) as [|r rs];
      try (by injection Hroutes as <-);
      (eapply forEach_invariant; [apply routeStep_tracked|exact Hroutes|exact Hstart]). }
  destruct (forEach _ allFiles st) as [st'|] eqn:Hfiles; [|discriminate].
  intros [= <-].
  eapply (forEach_invariant namesTracked);
    [apply fileStep_tracked|exact Hfiles|exact Hst].
Qed.

Lemma detectScreens_names_unique_witness :
  NoDup (map DetectedScreen.name
             [DetectedScreen.mk "USERS" "Users" [baselineTest]]).
Proof.
  apply (detectScreens_names_unique
           (fun _ => ".tsx") (fun _ _ => "UsersPage") (fun _ => "UsersPage.tsx")
           (fun _ => emptyAnalysis) (fun p => p) (fun _ => Normal "")
           {| RouterParserResult.type := createBrowserRouter;
              RouterParserResult.routes :=
                [ParsedRoute.mk "/users" "Users" None;
                 ParsedRoute.mk "users" "UserList" None];
              RouterParserResult.configFile := Some "src/App.tsx" |}
           (fun _ => None)
           ["src/pages/UsersPage.tsx"]).
  vm_compute. reflexivity.
Defined.

(** Two routes and a page file that all name the screen [USERS] give one
    entry, the one of the first route. *)
Example detectScreens_sample :
  sampleDetection
    = Normal [DetectedScreen.mk "USERS" "Users" [baselineTest]].
Proof. vm_compute. reflexivity. Qed.

(** ** What a status update touches *)

(** [updateTestStatus] keeps the items where they are and changes nothing
    of an item but its result: an item of the given id gets the given
    status and notes and the clock reading as [testedAt], keeping its id,
    screen, category and description; every other item is left as it was,
    as are the screens, the bugs, the history and the panel flag. *)
Theorem updateTestStatus_touches_results_only :
  forall (testId : string) (st : TestStatus) (nt : option string) (now : Z)
         (s : QAState.t),
    let s' := updateTestStatus testId st nt now s in
    Forall2
      (fun old new =>
         TestItem.id new = TestItem.id old /\
         TestItem.screen new = TestItem.screen old /\
         TestItem.category new = TestItem.category old /\
         TestItem.description new = TestItem.description old /\
         if decide (TestItem.id old = testId)
         then TestItem.status new = st /\ TestItem.notes new = nt /\
              TestItem.testedAt new = Some now
         else new = old)
      (allItems (QAState.checklists s)) (allItems (QAState.checklists s')) /\
    map (fun c => (TestChecklist.screen c, length (TestChecklist.items c)))
        (QAState.checklists s')
      = map (fun c => (TestChecklist.screen c, length (TestChecklist.items c)))
            (QAState.checklists s) /\
    QAState.bugs s' = QAState.bugs s /\
    QAState.testSessions s' = QAState.testSessions s /\
    QAState.isOpen s' = QAState.isOpen s.
Proof.
  intros testId st nt now s s'. subst s'. unfold updateTestStatus. simpl.
  repeat split.
  - rewrite allItems_mapItems.
    induction (allItems (QAState.checklists s)) as [|x l IH]; simpl;
      constructor; [|exact IH].
    destruct (decide (TestItem.id x = testId)); simpl; done.
  - unfold mapItems. rewrite map_map. apply map_ext. intros c. simpl.
    by rewrite length_map.
Qed.

(** ** Adding and removing items *)


(** [removeTestItem] deletes every item of the id and nothing else: the
    other items stay in order, every checklist stays (an emptied one too),
    and the current session, counters included, is not touched. *)
Theorem removeTestItem_removes_exactly :
  forall (testId : string) (s : QAState.t),
    let s' := removeTestItem testId s in
    allItems (QAState.checklists s')
      = filter (fun item => TestItem.id item <> testId)
               (allItems (QAState.checklists s)) /\
    map TestChecklist.screen (QAState.checklists s')
      = map TestChecklist.screen (QAState.checklists s) /\
    QAState.currentSession s' = QAState.currentSession s /\
    QAState.bugs s' = QAState.bugs s /\
    QAState.testSessions s' = QAState.testSessions s.
Proof.
  intros testId s s'. subst s'. unfold removeTestItem. simpl.
  repeat split.
  - unfold allItems.
    induction (QAState.checklists s) as [|c cls IH]; simpl; [done|].
    by rewrite filter_app, IH.
  - rewrite map_map. by apply map_ext.
Qed.

Lemma existsb_screenCount item cls :
  existsb (fun c => String.eqb (TestChecklist.screen c) (TestItem.screen item)) cls
    = negb (Nat.eqb (screenCount (TestItem.screen item) cls) 0).
Proof.
  unfold screenCount. induction cls as [|c cls IH]; simpl; [done|].
  rewrite filter_cons. destruct (String.eqb_spec (TestChecklist.screen c)
                                   (TestItem.screen item)) as [He|He].
  - by rewrite decide_True.
  - by rewrite decide_False.
Qed.




Lemma filter_items_absent testId c :
  Forall (fun item => TestItem.id item <> testId) (TestChecklist.items c) ->
  {| TestChecklist.screen := TestChecklist.screen c;
     TestChecklist.items :=
       filter (fun item => TestItem.id item <> testId) (TestChecklist.items c) |}
  = c.
Proof.
  intros H. rewrite filter_Forall_id by done. apply TestChecklist_eta.
Qed.

Lemma testIdAbsent_each testId cls :
  Forall (fun item => TestItem.id item <> testId) (allItems cls) ->
  Forall (fun c => Forall (fun item => TestItem.id item <> testId)
                          (TestChecklist.items c)) cls.
Proof.
  unfold allItems. induction cls as [|c cls IH]; simpl; [constructor|].
  intros H. apply Forall_app in H as [Hc Hcls]. constructor; auto.
Qed.

(** Adding an item under an unused id and removing it again gives the
    state back when a checklist of the item's screen existed; when the
    screen was new, the checklist created for it stays behind, empty. *)
Theorem addTestItem_removeTestItem :
  forall (item : TestItem.t) (s : QAState.t),
    testIdAbsent (TestItem.id item) s ->
    removeTestItem (TestItem.id item) (addTestItem item s)
      = if Nat.eqb (screenCount (TestItem.screen item) (QAState.checklists s)) 0
        then withChecklists
               (QAState.checklists s
                ++ [ {| TestChecklist.screen := TestItem.screen item;
                        TestChecklist.items := [] |} ]) s
        else s.
Proof.
  intros item [o cs ts cls bs] Habs. unfold testIdAbsent in Habs.
  apply testIdAbsent_each in Habs.
  unfold removeTestItem, addTestItem, withChecklists. simpl in *.
  rewrite existsb_screenCount.
  destruct (Nat.eqb (screenCount (TestItem.screen item) cls) 0); simpl.
  - f_equal. rewrite map_app. simpl. f_equal.
    + apply map_Forall_id. eapply Forall_impl; [exact Habs|].
      intros c Hc. by apply filter_items_absent.
    + rewrite filter_cons_False, filter_nil by (simpl; tauto). done.
  - f_equal.
    rewrite map_map. apply map_Forall_id.
    eapply Forall_impl; [exact Habs|]. intros c Hc. simpl.
    destruct (String.eqb _ _); simpl.
    + rewrite filter_app, filter_cons_False, filter_nil, app_nil_r
        by (simpl; tauto).
      by apply filter_items_absent.
    + by apply filter_items_absent.
Qed.

Lemma addTestItem_removeTestItem_witness :
  removeTestItem "home_001" (addTestItem sampleItem DEFAULT_STATE)
    = withChecklists [ {| TestChecklist.screen := "HOME";
                          TestChecklist.items := [] |} ] DEFAULT_STATE.
Proof.
  apply (addTestItem_removeTestItem sampleItem DEFAULT_STATE). constructor.
Defined.

(** ** Filing and deleting a bug, with or without a session *)

(** When the id [reportBug] assigns occurs nowhere in the state, filing
    the bug and deleting it by that id gives the whole state back, the
    current session's [bugsFound] included. *)
Theorem reportBug_deleteBug_restores_state :
  forall (s : QAState.t) (bug : BugDraft.t) (nowId nowReported : Z),
    bugIdAbsent (BugReport.id (newBug bug nowId nowReported)) s ->
    deleteBug (BugReport.id (newBug bug nowId nowReported))
              (reportBug bug nowId nowReported s) = s.
Proof.
  intros [o cs ts cls bs] bug nowId nowReported [Hb Hs].
  unfold deleteBug, reportBug. simpl in *. f_equal.
  - destruct cs as [session|]; [|done]. simpl in *. f_equal.
    destruct session. unfold withBugsFound. simpl in *. f_equal.
    rewrite filter_app, filter_cons_False, filter_nil, app_nil_r by tauto.
    by apply filter_Forall_id.
  - rewrite filter_app, filter_cons_False, filter_nil, app_nil_r
      by (simpl; tauto).
    by apply filter_Forall_id.
Qed.

Lemma reportBug_deleteBug_restores_state_witness :
  let s := performAll [AddTestItem sampleItem;
                       StartTestSession "run" "tester" 100 100;
                       ReportBug sampleDraft 101 101] (seeded []) in
  deleteBug "bug_102" (reportBug sampleDraft 102 103 s) = s.
Proof.
  apply (reportBug_deleteBug_restores_state
           (performAll [AddTestItem sampleItem;
                        StartTestSession "run" "tester" 100 100;
                        ReportBug sampleDraft 101 101] (seeded []))
           sampleDraft 102 103).
  split; repeat constructor; discriminate.
Defined.

(** ** More on reconciliation *)

Lemma lastSaved_no_history testId saved :
  Forall (fun x => ~ carriesHistory x) saved -> lastSaved testId saved = None.
Proof.
  intros H. unfold lastSaved.
  replace (filter _ saved) with (@nil TestItem.t); [done|].
  symmetry. induction H as [|x l Hx _ IH]; [done|].
  rewrite filter_cons_False by tauto. done.
Qed.

Lemma mergeChecklists_no_history saved supplied :
  Forall (fun x => ~ carriesHistory x) (allItems saved) ->
  mergeChecklists saved supplied = supplied.
Proof.
  intros H. unfold mergeChecklists. apply mapItems_id_ext.
  intros d _. unfold mergeItem.
  by rewrite savedResults_lookup, lastSaved_no_history.
Qed.

(** Starting a session leaves nothing for a later reconciliation to carry
    forward: merged against the checklists of the state right after
    [startTestSession], every supplied collection comes back unchanged. *)
Theorem mergeChecklists_after_startTestSession :
  forall (s : QAState.t) (name tester : string) (nowId nowStarted : Z)
         (supplied : list TestChecklist.t),
    mergeChecklists
      (QAState.checklists (startTestSession name tester nowId nowStarted s))
      supplied
    = supplied.
Proof.
  intros s name tester nowId nowStarted supplied.
  apply mergeChecklists_no_history.
  unfold startTestSession. simpl. rewrite allItems_mapItems.
  apply Forall_forall. intros x Hx.
  apply list_elem_of_In, in_map_iff in Hx as (y & <- & _).
  unfold carriesHistory, resetItem. simpl. tauto.
Qed.

Lemma mergeItem_id m d : TestItem.id (mergeItem m d) = TestItem.id d.
Proof. unfold mergeItem. by destruct (m !! TestItem.id d). Qed.

Lemma mergeItem_twice m d : mergeItem m (mergeItem m d) = mergeItem m d.
Proof.
  unfold mergeItem at 1. rewrite mergeItem_id.
  unfold mergeItem. by destruct (m !! TestItem.id d).
Qed.

(** Reconciling an already reconciled collection against the same saved
    collection changes nothing. *)
Theorem mergeChecklists_idempotent :
  forall saved supplied : list TestChecklist.t,
    mergeChecklists saved (mergeChecklists saved supplied)
      = mergeChecklists saved supplied.
Proof.
  intros saved supplied. unfold mergeChecklists, mapItems.
  rewrite map_map. apply map_ext. intros c. simpl. f_equal.
  rewrite map_map. apply map_ext. intros d. apply mergeItem_twice.
Qed.

Lemma filter_unique_id (l : list TestItem.t) (d : TestItem.t) :
  NoDup (map TestItem.id l) -> In d l ->
  filter (fun s => TestItem.id s = TestItem.id d /\ carriesHistory s) l
    = if decide (carriesHistory d) then [d] else [].
Proof.
  induction l as [|x l IH]; simpl; [done|].
  intros Hnd Hin. apply NoDup_cons in Hnd as [Hx Hnd].
  assert (Hrest : forall y, In y l -> TestItem.id y = TestItem.id x -> False).
  { intros y Hy Heq. apply Hx. rewrite <- Heq.
    apply list_elem_of_In, in_map. exact Hy. }
  destruct Hin as [->|Hin].
  - assert (Hnil : filter (fun s => TestItem.id s = TestItem.id d /\ carriesHistory s) l = []).
    { clear IH Hnd Hx. induction l as [|y l IHl]; [done|].
      rewrite filter_cons_False.
      - apply IHl. intros z Hz. apply Hrest. by right.
      - intros [Heq _]. apply (Hrest y); [by left|done]. }
    rewrite filter_cons, Hnil.
    destruct (decide (carriesHistory d)).
    + by rewrite decide_True.
    + rewrite decide_False by tauto. done.
  - rewrite filter_cons_False.
    + by apply IH.
    + intros [Heq _]. apply (Hrest d Hin). done.
Qed.

(** A collection whose item ids are all different reconciles with itself
    to itself: reloading with the checklists that were saved loses and
    changes nothing. *)
Theorem mergeChecklists_self :
  forall cls : list TestChecklist.t,
    NoDup (map TestItem.id (allItems cls)) ->
    mergeChecklists cls cls = cls.
Proof.
  intros cls Hnd. unfold mergeChecklists. apply mapItems_id_ext.
  intros d Hd. unfold mergeItem.
  rewrite savedResults_lookup. unfold lastSaved.
  rewrite (filter_unique_id _ d Hnd Hd).
  destruct (decide (carriesHistory d)); simpl; [|done].
  by destruct d.
Qed.

Lemma mergeChecklists_self_witness :
  mergeChecklists testedChecklists testedChecklists = testedChecklists.
Proof.
  apply (mergeChecklists_self testedChecklists).
  repeat constructor. apply not_elem_of_nil.
Defined.

(** ** The fingerprint *)

Lemma ascii_compare_Lt_trans a b c :
  Ascii.compare a b = Lt -> Ascii.compare b c = Lt -> Ascii.compare a c = Lt.
Proof.
  unfold Ascii.compare. rewrite !N.compare_lt_iff. apply N.lt_trans.
Qed.

Lemma ascii_compare_Eq a b : Ascii.compare a b = Eq <-> a = b.
Proof.
  split; [apply Ascii.compare_eq_iff|].
  intros ->. unfold Ascii.compare. apply N.compare_refl.
Qed.

Lemma string_compare_Lt_trans s1 :
  forall s2 s3,
    String.compare s1 s2 = Lt -> String.compare s2 s3 = Lt ->
    String.compare s1 s3 = Lt.
Proof.
  induction s1 as [|c1 s1 IH]; intros [|c2 s2] [|c3 s3]; simpl; try done.
  destruct (Ascii.compare c1 c2) eqn:H12; try done;
    destruct (Ascii.compare c2 c3) eqn:H23; try done; intros Ha Hb.
  - apply ascii_compare_Eq in H12, H23. subst.
    replace (Ascii.compare c3 c3) with Eq
      by (symmetry; by apply ascii_compare_Eq).
    by apply (IH s2).
  - apply ascii_compare_Eq in H12. subst. by rewrite H23.
  - apply ascii_compare_Eq in H23. subst. by rewrite H12.
  - by rewrite (ascii_compare_Lt_trans _ _ _ H12 H23).
Qed.

Lemma string_compare_refl s : String.compare s s = Eq.
Proof.
  induction s as [|c s IH]; simpl; [done|].
  replace (Ascii.compare c c) with Eq by (symmetry; by apply ascii_compare_Eq).
  done.
Qed.

#[local] Instance stringLe_transitive : Transitive stringLe.
Proof.
  unfold stringLe, String.leb. intros s1 s2 s3 H12 H23.
  destruct (String.compare s1 s2) eqn:E12; [| |done].
  - apply String.compare_eq_iff in E12. by subst.
  - destruct (String.compare s2 s3) eqn:E23; [| |done].
    + apply String.compare_eq_iff in E23. subst. by rewrite E12.
    + by rewrite (string_compare_Lt_trans _ _ _ E12 E23).
Qed.

#[local] Instance stringLe_antisymmetric : AntiSymm (=) stringLe.
Proof. intros a b. apply String.leb_antisym. Qed.

Lemma insertString_perm x l : Permutation (insertString x l) (x :: l).
Proof.
  induction l as [|y r IH]; simpl; [done|].
  destruct (String.leb x y); [done|]. rewrite IH. apply perm_swap.
Qed.

Lemma sortStrings_perm l : Permutation (sortStrings l) l.
Proof.
  unfold sortStrings. induction l as [|x l IH]; simpl; [done|].
  by rewrite insertString_perm, IH.
Qed.

Lemma insertString_sorted x l :
  Sorted stringLe l -> Sorted stringLe (insertString x l).
Proof.
  induction 1 as [|y r Hr IH Hy]; simpl.
  - by repeat constructor.
  - destruct (String.leb x y) eqn:Hxy.
    + by repeat constructor.
    + assert (Hyx : stringLe y x).
      { destruct (String.leb_total x y) as [H|H]; [congruence|done]. }
      constructor; [done|].
      destruct r as [|z r]; simpl; [by constructor|].
      destruct (String.leb x z); constructor; [done|]. by inversion Hy.
Qed.

Lemma sortStrings_sorted l : Sorted stringLe (sortStrings l).
Proof.
  unfold sortStrings. induction l as [|x l IH]; simpl; [constructor|].
  by apply insertString_sorted.
Qed.

Lemma sortStrings_permutation l1 l2 :
  Permutation l1 l2 -> sortStrings l1 = sortStrings l2.
Proof.
  intros H. apply (Sorted_unique stringLe); try apply sortStrings_sorted.
  by rewrite !sortStrings_perm.
Qed.

Lemma fingerprint_ids cls :
  flat_map (fun c => map TestItem.id (TestChecklist.items c)) cls
    = map TestItem.id (allItems cls).
Proof.
  unfold allItems. induction cls as [|c cls IH]; simpl; [done|].
  by rewrite map_app, IH.
Qed.

Lemma fingerprint_permutation cls1 cls2 :
  Permutation (map TestItem.id (allItems cls1))
              (map TestItem.id (allItems cls2)) ->
  generateChecklistFingerprint cls1 = generateChecklistFingerprint cls2.
Proof.
  intros H. unfold generateChecklistFingerprint.
  rewrite !fingerprint_ids. f_equal. by apply sortStrings_permutation.
Qed.

(** The fingerprint depends on the item ids only, not on their order or
    on the checklists they sit in: two collections whose ids are the same
    up to order have the same fingerprint. *)
Theorem generateChecklistFingerprint_order_free :
  forall cls1 cls2 : list TestChecklist.t,
    Permutation (map TestItem.id (allItems cls1))
                (map TestItem.id (allItems cls2)) ->
    generateChecklistFingerprint cls1 = generateChecklistFingerprint cls2.
Proof.
  intros cls1 cls2 H. by apply fingerprint_permutation.
Qed.

Lemma generateChecklistFingerprint_order_free_witness :
  generateChecklistFingerprint
    [checklistOf "HOME" [itemWith "home_001" not_started None None;
                         itemWith "home_002" not_started None None]]
  = generateChecklistFingerprint
      [checklistOf "START" [itemWith "home_002" passed None (Some 3)];
       checklistOf "HOME" [itemWith "home_001" not_started None None]].
Proof.
  apply generateChecklistFingerprint_order_free. simpl. apply perm_swap.
Defined.

(** So a supplied collection that keeps the ids of the one fingerprinted at
    the previous start is not reconciled at all: the provider adopts the
    loaded checklists as they are, and whatever else changed in the
    supplied ones (descriptions, categories, screens, order) is ignored. *)
Theorem initialState_same_ids_keeps_loaded :
  forall (loaded : QAState.t) (previous supplied : list TestChecklist.t),
    QAState.checklists loaded <> [] ->
    Permutation (map TestItem.id (allItems previous))
                (map TestItem.id (allItems supplied)) ->
    initialState (Some loaded)
                 (Some (generateChecklistFingerprint previous)) supplied
    = adopt loaded (QAState.checklists loaded).
Proof.
  intros loaded previous supplied Hne Hperm. unfold initialState.
  destruct (QAState.checklists loaded) as [|c cls] eqn:Hc; [done|].
  simpl. rewrite (fingerprint_permutation _ _ Hperm).
  by rewrite decide_False by (intros H; by apply H).
Qed.

Lemma initialState_same_ids_keeps_loaded_witness :
  initialState
    (Some (performAll samplePass (seeded [])))
    (Some (generateChecklistFingerprint
             [checklistOf "HOME" [itemWith "home_001" not_started None None]]))
    [checklistOf "START" [itemWith "home_001" not_started (Some "renamed") None]]
  = adopt (performAll samplePass (seeded [])) testedChecklists.
Proof.
  apply (initialState_same_ids_keeps_loaded
           (performAll samplePass (seeded []))
           [checklistOf "HOME" [itemWith "home_001" not_started None None]]
           [checklistOf "START" [itemWith "home_001" not_started (Some "renamed") None]]).
  - discriminate.
  - reflexivity.
Defined.

(** ** Import, and the retry of a save *)

Lemma importQAState_Resolved JSON_parse fileText v :
  importQAState JSON_parse fileText = Resolved v <->
  exists content,
    fileText = Some content /\ JSON_parse content = Normal v /\ wellShaped v.
Proof.
  unfold importQAState, importQAState_try.
  unfold mbind, Completion_bind, mret, Completion_ret.
  split.
  - destruct fileText as [content|]; [|discriminate].
    destruct (JSON_parse content) as [parsed|e] eqn:Hp; [|discriminate].
    destruct (validStructure parsed) as [[]|e] eqn:Hv; [|discriminate..].
    intros [= <-]. exists content. repeat split; [done|].
    by apply validStructure_spec.
  - intros (content & -> & Hp & Hw). rewrite Hp.
    apply validStructure_spec in Hw. by rewrite Hw.
Qed.

(** A file is imported exactly when its text, stored under the key, would
    be loaded: [importQAState] resolves with a value if and only if
    [loadQAState] returns that value for the same non-empty text, and it
    rejects in every other case. *)
Theorem importQAState_accepts_what_load_accepts :
  forall (JSON_parse : string -> Completion JSON) (content : string) (v : JSON),
    content <> "" ->
    (importQAState JSON_parse (Some content) = Resolved v <->
     loadQAState JSON_parse (Normal (Some content)) = Normal (Some v)).
Proof.
  intros JSON_parse content v Hne.
  rewrite importQAState_Resolved.
  destruct (loadQAState_general JSON_parse (Normal (Some content)))
    as (r & Hr & Hiff).
  rewrite Hr. split.
  - intros (c & [= <-] & Hp & Hw). f_equal. apply Hiff. by exists content.
  - intros [= ->]. destruct (proj1 (Hiff v) eq_refl) as (c & [= <-] & _ & Hp & Hw).
    by exists content.
Qed.

Lemma importQAState_accepts_what_load_accepts_witness :
  importQAState sampleParse (Some sampleBlob) = Resolved sampleParsed <->
  loadQAState sampleParse (Normal (Some sampleBlob)) = Normal (Some sampleParsed).
Proof.
  apply (importQAState_accepts_what_load_accepts sampleParse sampleBlob sampleParsed).
  discriminate.
Defined.

Lemma insertSession_front x l :
  Forall (fun y => startsNoEarlier x y) l -> insertSession x l = x :: l.
Proof.
  destruct 1 as [|y l Hy _]; simpl; [done|].
  unfold startsNoEarlier in Hy.
  destruct (Z.leb_spec (TestSession.startedAt y - TestSession.startedAt x) 0);
    [done|lia].
Qed.

Lemma sortByStartDesc_sorted_id l :
  StronglySorted startsNoEarlier l -> sortByStartDesc l = l.
Proof.
  unfold sortByStartDesc. induction 1 as [|x l Hl IH Hx]; simpl; [done|].
  rewrite IH. by apply insertSession_front.
Qed.

(** Trimming is idempotent: a state that went through the retry once is
    written back unchanged by another retry. *)
Theorem clearOldSessions_idempotent :
  forall state : QAState.t,
    clearOldSessions (clearOldSessions state) = clearOldSessions state.
Proof.
  intros state. unfold clearOldSessions. simpl. f_equal.
  pose proof (sortByStartDesc_sorted (QAState.testSessions state)) as Hs.
  rewrite <- (take_drop 10 (sortByStartDesc (QAState.testSessions state))) in Hs.
  apply StronglySorted_app in Hs as (_ & Hkept & _).
  rewrite (sortByStartDesc_sorted_id _ Hkept).
  apply take_ge. rewrite length_take. lia.
Qed.

(** ** detectScreenFromURL *)

Lemma find_In {A} (p : A -> bool) (l : list A) (x : A) :
  find p l = Some x -> In x l /\ p x = true.
Proof. apply find_some. Qed.

Lemma screenOr_In c rest cls r :
  (forall x, c = Some x -> In x cls) ->
  (forall r', rest = Some r' -> In r' (map TestChecklist.screen cls)) ->
  screenOr c rest = Some r -> In r (map TestChecklist.screen cls).
Proof.
  intros Hc Hrest. unfold screenOr. destruct c as [x|]; [|by apply Hrest].
  destruct (String.eqb _ ""); [by apply Hrest|].
  intros [= <-]. apply in_map, Hc. done.
Qed.

Lemma toLowerCase_twice s : toLowerCase (toLowerCase s) = toLowerCase s.
Proof.
  unfold toLowerCase. rewrite mapString_compose.
  induction s as [|c r IH]; simpl; [done|]. rewrite IH. f_equal.
  clear. each_ascii c.
Qed.

(** The detected screen is never made up: it is the screen of one of the
    given checklists, or nothing, and nothing when there is no [window] or
    no checklist at all.  The case of the URL does not matter. *)
Theorem detectScreenFromURL_names_a_checklist :
  forall (location : option (string * string))
         (checklists : list TestChecklist.t),
    from_option (fun r => In r (map TestChecklist.screen checklists)) True
                (detectScreenFromURL location checklists) /\
    detectScreenFromURL None checklists = None /\
    detectScreenFromURL location [] = None /\
    detectScreenFromURL
      (prod_map toLowerCase toLowerCase <$> location) checklists
      = detectScreenFromURL location checklists.
Proof.
  intros location checklists. repeat split.
  - destruct location as [[pathname hash]|]; [|done]. simpl.
    destruct (find _ checklists) as [c|] eqn:Hf.
    + apply find_In in Hf as [Hin _]. simpl. by apply in_map.
    + destruct (_ || _); [|done].
      destruct (screenOr _ _) as [r|] eqn:Hr; [|done]. simpl.
      eapply screenOr_In; [| |exact Hr].
      * intros x Hx. by apply find_In in Hx as [Hin _].
      * intros r' Hr'. eapply screenOr_In; [| |exact Hr']; [|done].
        intros x Hx. destruct checklists; [done|].
        injection Hx as <-. by left.
  - destruct location as [[pathname hash]|]; [|done]. simpl.
    by destruct (_ || _).
  - destruct location as [[pathname hash]|]; [|done]. simpl.
    by rewrite !toLowerCase_twice.
Qed.

(** ** Test suggestions *)

Lemma existsb_eqb_In x (l : list string) :
  existsb (String.eqb x) l = true <-> In x l.
Proof.
  rewrite existsb_exists. split.
  - intros (y & Hy & He). apply String.eqb_eq in He. by subst.
  - intros H. exists x. split; [done|]. apply String.eqb_refl.
Qed.

Lemma setAdd_In seen x y : In y (setAdd seen x) <-> In y seen \/ y = x.
Proof.
  unfold setAdd. destruct (existsb (String.eqb x) seen) eqn:He.
  - apply existsb_eqb_In in He. split; [by left|].
    intros [H| ->]; done.
  - rewrite in_app_iff. simpl. intuition.
Qed.

Lemma setAdd_NoDup seen x : NoDup seen -> NoDup (setAdd seen x).
Proof.
  intros H. unfold setAdd. destruct (existsb (String.eqb x) seen) eqn:He; [done|].
  apply NoDup_app. split; [done|]. split.
  - intros y Hy Hx. apply list_elem_of_singleton in Hx as ->.
    assert (existsb (String.eqb x) seen = true); [|congruence].
    apply existsb_eqb_In. by apply list_elem_of_In.
  - apply NoDup_singleton.
Qed.

Lemma fold_setAdd_NoDup l seen :
  NoDup seen -> NoDup (fold_left setAdd l seen).
Proof.
  revert seen. induction l as [|x l IH]; intros seen H; simpl; [done|].
  by apply IH, setAdd_NoDup.
Qed.

Lemma fold_setAdd_In l seen y :
  In y (fold_left setAdd l seen) <-> In y seen \/ In y l.
Proof.
  revert seen. induction l as [|x l IH]; intros seen; simpl; [tauto|].
  rewrite IH, setAdd_In. intuition.
Qed.

Lemma fold_setAdd_head l seen x :
  head seen = Some x -> head (fold_left setAdd l seen) = Some x.
Proof.
  revert seen. induction l as [|y l IH]; intros seen H; simpl; [done|].
  apply IH. unfold setAdd. destruct (existsb _ seen); [done|].
  by destruct seen.
Qed.

Lemma uniqueInOrder_cons x l :
  NoDup (uniqueInOrder (x :: l)) /\
  head (uniqueInOrder (x :: l)) = Some x /\
  forall y, In y (uniqueInOrder (x :: l)) <-> y = x \/ In y l.
Proof.
  unfold uniqueInOrder. simpl. unfold setAdd at 2. simpl. repeat split.
  - apply fold_setAdd_NoDup, NoDup_singleton.
  - by apply fold_setAdd_head.
  - rewrite fold_setAdd_In. simpl. intuition.
  - rewrite fold_setAdd_In. simpl. intuition.
Qed.

(** Both generators of suggestions return a list without duplicates whose
    first entry is the baseline test; [generateSpecificTests] returns, apart
    from the baseline, exactly the descriptions it pushed. *)
Theorem suggestions_unique_baseline_first :
  forall (path_basename : string -> string) (componentName : string)
         (analysis : ComponentAnalysis.t) (filePath content : string),
    let specific := generateSpecificTests componentName analysis in
    let fallback := suggestTestsFromPatterns path_basename filePath content in
    NoDup specific /\ head specific = Some baselineTest /\
    (forall t, In t specific <-> t = baselineTest \/ In t (specificPushes analysis)) /\
    NoDup fallback /\ head fallback = Some baselineTest.
Proof.
  intros path_basename componentName analysis filePath content specific fallback.
  subst specific fallback.
  unfold generateSpecificTests, suggestTestsFromPatterns.
  destruct (uniqueInOrder_cons baselineTest (specificPushes analysis))
    as (H1 & H2 & H3).
  repeat split; try done; try apply H3; simpl app; apply uniqueInOrder_cons.
Qed.

Lemma quoted_not_baseline s : dquote +:+ s <> baselineTest.
Proof. discriminate. Qed.

Lemma lastChar_append s t :
  lastChar (s +:+ t)
    = match lastChar t with Some d => Some d | None => lastChar s end.
Proof.
  induction s as [|c r IH].
  - change ("" +:+ t) with t. by destruct (lastChar t).
  - change (String c r +:+ t) with (String c (r +:+ t)). simpl.
    rewrite IH. by destruct (lastChar t).
Qed.

Lemma not_baseline_by_last s t d :
  lastChar t = Some d -> d <> "s"%char -> s +:+ t <> baselineTest.
Proof.
  intros Ht Hd Heq. apply (f_equal lastChar) in Heq.
  rewrite lastChar_append, Ht in Heq. simpl in Heq. congruence.
Qed.

Lemma append_assoc_not_baseline s t : (dquote +:+ s) +:+ t <> baselineTest.
Proof. discriminate. Qed.

Lemma Forall_flat_map_intro {A B} (P : B -> Prop) (f : A -> list B) l :
  (forall x, Forall P (f x)) -> Forall P (flat_map f l).
Proof.
  intros H. induction l as [|x l IH]; simpl; [constructor|].
  apply Forall_app. auto.
Qed.

Lemma buttonTests_not_baseline btn :
  Forall (fun t => t <> baselineTest) (buttonTests btn).
Proof.
  unfold buttonTests. destruct (String.eqb _ ""); [constructor|].
  repeat (apply Forall_app; split);
    repeat case_match; repeat constructor;
    discriminate.
Qed.

Lemma inputTests_not_baseline input :
  Forall (fun t => t <> baselineTest) (inputTests input).
Proof.
  unfold inputTests. destruct (_ || _); [constructor|].
  repeat (apply Forall_app; split);
    repeat case_match; repeat constructor;
    discriminate.
Qed.

Lemma selectTests_not_baseline select :
  Forall (fun t => t <> baselineTest) (selectTests select).
Proof.
  unfold selectTests. destruct (ExtractedSelect.options select);
    repeat constructor; discriminate.
Qed.

Lemma modalTests_not_baseline modal :
  Forall (fun t => t <> baselineTest) (modalTests modal).
Proof.
  unfold modalTests. repeat constructor.
  - eapply not_baseline_by_last; [reflexivity|discriminate].
  - eapply not_baseline_by_last; [reflexivity|discriminate].
Qed.

Lemma linkTests_not_baseline link :
  Forall (fun t => t <> baselineTest) (linkTests link).
Proof.
  unfold linkTests. destruct (String.eqb _ ""); repeat constructor.
  discriminate.
Qed.

Lemma specificPushes_not_baseline analysis :
  Forall (fun t => t <> baselineTest) (specificPushes analysis).
Proof.
  unfold specificPushes.
  repeat (apply Forall_app; split).
  - apply Forall_flat_map_intro, buttonTests_not_baseline.
  - apply Forall_flat_map_intro, inputTests_not_baseline.
  - apply Forall_flat_map_intro, selectTests_not_baseline.
  - destruct (ComponentAnalysis.forms analysis); repeat constructor; discriminate.
  - apply Forall_flat_map_intro, modalTests_not_baseline.
  - apply Forall_flat_map_intro, linkTests_not_baseline.
  - destruct (ComponentAnalysis.tables analysis); repeat constructor; discriminate.
  - destruct (ComponentAnalysis.pagination analysis); repeat constructor; discriminate.
  - destruct (ComponentAnalysis.search analysis); repeat constructor; discriminate.
  - destruct (ComponentAnalysis.dataFetching analysis); [|constructor].
    repeat (apply Forall_app; split); repeat case_match;
      repeat constructor; discriminate.
Qed.

Lemma flat_map_nil_forallb {A B} (f : A -> list B) (p : A -> bool) l :
  (forall x, f x = [] <-> p x = true) ->
  flat_map f l = [] <-> forallb p l = true.
Proof.
  intros H. induction l as [|x l IH]; simpl; [done|].
  rewrite andb_true_iff, <- IH, <- H. split.
  - intros Happ. by apply app_eq_nil in Happ.
  - intros [-> ->]. done.
Qed.

Lemma flat_map_nonempty_nil {A B} (f : A -> list B) l :
  (forall x, f x <> []) -> flat_map f l = [] <-> l = [].
Proof.
  intros H. destruct l as [|x l]; simpl; [done|]. split; [|done].
  intros Happ. apply app_eq_nil in Happ as [Hx _]. by apply H in Hx.
Qed.

Lemma length_eqb_0 {A} (l : list A) : (length l =? 0)%nat = true <-> l = [].
Proof. destruct l; simpl; split; done. Qed.

Lemma specificPushes_nil analysis :
  specificPushes analysis = [] <-> nothingFound analysis = true.
Proof.
  unfold specificPushes, nothingFound.
  rewrite !andb_true_iff, !negb_true_iff, !length_eqb_0.
  rewrite <- (flat_map_nil_forallb buttonTests), <- (flat_map_nil_forallb inputTests),
    <- (flat_map_nil_forallb linkTests).
  - rewrite <- (flat_map_nonempty_nil selectTests (ComponentAnalysis.selects analysis)),
      <- (flat_map_nonempty_nil modalTests (ComponentAnalysis.modals analysis)).
    + split.
      * intros H. repeat (apply app_eq_nil in H as [? H]).
        repeat split; try done.
        -- by destruct (ComponentAnalysis.forms analysis).
        -- by destruct (ComponentAnalysis.tables analysis).
        -- by destruct (ComponentAnalysis.pagination analysis).
        -- by destruct (ComponentAnalysis.search analysis).
        -- by destruct (ComponentAnalysis.dataFetching analysis).
      * intros (((((((((-> & ->) & ->) & ->) & ->) & ->) & ->) & ->) & ->) & ->).
        done.
    + intros x. done.
    + intros x. unfold selectTests. by destruct (ExtractedSelect.options x).
  - intros x. unfold linkTests. by destruct (String.eqb _ "").
  - intros x. unfold inputTests. by destruct (_ || _).
  - intros x. unfold buttonTests. by destruct (String.eqb _ "").
Qed.

Lemma uniqueInOrder_singleton x l :
  Forall (fun t => t <> x) l ->
  (length (uniqueInOrder (x :: l)) <=? 1)%nat = true <-> l = [].
Proof.
  intros Hne. split; [|by intros ->].
  destruct (uniqueInOrder_cons x l) as (Hnd & Hhd & Hin).
  destruct (uniqueInOrder (x :: l)) as [|a [|b rest]] eqn:Hu; try done.
  intros _. destruct l as [|y l]; [done|]. exfalso.
  apply Forall_cons in Hne as [Hy _].
  assert (Hy' : In y [a]) by (apply Hin; right; by left).
  injection Hhd as ->. destruct Hy' as [->|[]]. done.
Qed.

(** [suggestTestsForComponent] falls back on the keyword suggestions
    exactly when the analysis found nothing to test, and returns the
    specific suggestions otherwise; a component whose only inputs are
    unnamed text fields counts as nothing found. *)
Theorem suggestTestsForComponent_fallback :
  forall (path_extname : string -> string)
         (path_basename_ext : string -> string -> string)
         (path_basename : string -> string)
         (analyzeComponent : string -> ComponentAnalysis.t)
         (filePath content : string),
    suggestTestsForComponent path_extname path_basename_ext path_basename
                             analyzeComponent filePath content
    = if nothingFound (analyzeComponent content)
      then suggestTestsFromPatterns path_basename filePath content
      else generateSpecificTests
             (extractComponentName path_extname path_basename_ext filePath)
             (analyzeComponent content).
Proof.
  intros. unfold suggestTestsForComponent, generateSpecificTests.
  pose proof (uniqueInOrder_singleton baselineTest
                (specificPushes (analyzeComponent content))
                (specificPushes_not_baseline _)) as Hone.
  rewrite specificPushes_nil in Hone.
  destruct (nothingFound (analyzeComponent content)).
  - by rewrite (proj2 Hone).
  - destruct (length _ <=? 1)%nat; [|done].
    discriminate (proj1 Hone eq_refl).
Qed.

(** ** Names *)

(** The derived screen name is never empty and holds no slash, no hyphen
    and no lower-case letter, whatever the route path is. *)
Theorem routePathToScreenName_shape :
  forall routePath : string,
    routePathToScreenName routePath <> "" /\
    allChars (fun c => negb (Ascii.eqb c "/") && negb (Ascii.eqb c "-")
                       && negb (isLowerChar c))
             (routePathToScreenName routePath) = true.
Proof.
  intros routePath.
  destruct (routePathToScreenName_settled routePath) as [Hs Hne].
  split; [done|].
  eapply allChars_impl; [|exact Hs].
  clear. intros c. each_ascii c.
Qed.

Lemma alnum_facts c :
  isAlphaNumeric c = true ->
  isSeparator c = false /\ isLineTerminator c = false /\
  isAlphaNumeric (upperChar c) = true /\ isLowerChar (upperChar c) = false.
Proof. each_ascii c. Qed.

Lemma capitalizeAfterSeparators_alnum s :
  (wordsJoined s = true ->
   allChars isAlphaNumeric (capitalizeAfterSeparators s) = true) /\
  (forall c, wordsJoined (String c s) = true ->
             allChars isAlphaNumeric (capitalizeAfterSeparators (String c s)) = true).
Proof.
  induction s as [|d r [IH1 IH2]].
  - split; [done|]. intros c. simpl.
    destruct (isSeparator c); [done|]. by rewrite andb_true_r.
  - split; [apply IH2|]. intros c Hc.
    change (capitalizeAfterSeparators (String c (String d r)))
      with (if isSeparator c && negb (isLineTerminator d)
            then String (upperChar d) (capitalizeAfterSeparators r)
            else String c (capitalizeAfterSeparators (String d r))).
    change (wordsJoined (String c (String d r)))
      with (if isSeparator c
            then isAlphaNumeric d && wordsJoined (String d r)
            else isAlphaNumeric c && wordsJoined (String d r)) in Hc.
    destruct (isSeparator c).
    + apply andb_true_iff in Hc as [Hd Hr].
      destruct (alnum_facts d Hd) as (Hsep & Hlt & Hup & _).
      rewrite Hlt. simpl andb. cbv iota.
      change (allChars isAlphaNumeric (String (upperChar d) (capitalizeAfterSeparators r)))
        with (isAlphaNumeric (upperChar d)
              && allChars isAlphaNumeric (capitalizeAfterSeparators r)).
      rewrite Hup. simpl andb. apply IH1.
      change (wordsJoined (String d r))
        with (if isSeparator d
              then match r with
                   | String e _ => isAlphaNumeric e && wordsJoined r
                   | EmptyString => false
                   end
              else isAlphaNumeric d && wordsJoined r) in Hr.
      rewrite Hsep in Hr. by apply andb_true_iff in Hr as [_ Hr].
    + apply andb_true_iff in Hc as [Hc Hr]. simpl andb. cbv iota.
      change (allChars isAlphaNumeric (String c (capitalizeAfterSeparators (String d r))))
        with (isAlphaNumeric c
              && allChars isAlphaNumeric (capitalizeAfterSeparators (String d r))).
      rewrite Hc. simpl andb. by apply IH2.
Qed.

(** On a kebab-case or snake_case name [toPascalCase] leaves letters and
    digits only, and the result does not start with a lower-case letter. *)
Theorem toPascalCase_joins_words :
  forall str : string,
    wordsJoined str = true ->
    allChars isAlphaNumeric (toPascalCase str) = true /\
    firstChar (fun c => negb (isLowerChar c)) (toPascalCase str) = true.
Proof.
  intros str H. apply capitalizeAfterSeparators_alnum in H.
  unfold toPascalCase.
  destruct (capitalizeAfterSeparators str) as [|c r]; [done|].
  simpl in H. apply andb_true_iff in H as [Hc Hr].
  destruct (alnum_facts c Hc) as (_ & Hlt & Hup & Hlow).
  unfold capitalizeFirst. rewrite Hlt. simpl. by rewrite Hup, Hr, Hlow.
Qed.

Lemma toPascalCase_joins_words_witness :
  allChars isAlphaNumeric (toPascalCase "user-profile_settings") = true /\
  firstChar (fun c => negb (isLowerChar c))
            (toPascalCase "user-profile_settings") = true.
Proof.
  apply (toPascalCase_joins_words "user-profile_settings"). reflexivity.
Defined.

Example toPascalCase_samples :
  toPascalCase "user-profile" = "UserProfile" /\
  toPascalCase "a--b" = "A-b" /\
  toPascalCase "blog_post" = "BlogPost" /\
  toPascalCase "" = "".
Proof. repeat split. Qed.

(** Whatever Node's path functions return for the file, the screen name
    extracted from it holds no lower-case letter and no hyphen. *)
Theorem extractComponentName_shape :
  forall (path_extname : string -> string)
         (path_basename_ext : string -> string -> string)
         (filePath : string),
    allChars (fun c => negb (isLowerChar c) && negb (Ascii.eqb c "-"))
             (extractComponentName path_extname path_basename_ext filePath)
      = true.
Proof.
  intros. unfold extractComponentName, replaceChar, toUpperCase.
  rewrite mapString_compose.
  induction (splitCamelCase _) as [|c r IH]; simpl; [done|].
  rewrite IH, andb_true_r. clear. each_ascii c.
Qed.

Example extractComponentName_samples :
  let name base := extractComponentName (fun _ => ".tsx") (fun _ _ => base) "" in
  name "UserProfilePage" = "USER_PROFILE" /\
  name "Dashboard" = "DASHBOARD" /\
  name "loginSCREEN" = "LOGIN" /\
  name "my-ordersView" = "MY_ORDERS".
Proof. repeat split. Qed.
